(** * Tienda Aurelion: inventory store, queries and stock mutations

    A shallow embedding of [streamlit_app.py].  The pandas DataFrame that
    the application passes around is a list of product rows; the backing
    CSV file is a list of lines, each a list of cells; the messages the
    application renders are recorded as a list of events.

    Conventions of the model:
    - integers of the [id], [precio] and [stock] columns are integers [Z];
      a column of pandas holds 64-bit integers, and the values the code
      computes and stores, [stock + cantidad], [stock - cantidad] and
      [max(id) + 1], wrap around as numpy does ([wrap64]); the properties
      that depend on the range say so ([en_int64], [catalogo_fiel]); the
      sums and products that are only displayed ([Series.sum],
      [precio * stock]) are the mathematical ones;
    - a text value is [Some s], a missing value (pandas' NaN, which
      [read_csv] produces for an empty cell and for the default NA markers)
      is [None];
    - the csv layer (delimiters, quoting) is abstracted: a line of the file
      is the list of its cells;
    - a cell of a numeric column is read as a decimal integer with an
      optional sign, and does not coerce otherwise; pandas also coerces
      cells with a fraction, with spaces or with underscores, and wraps the
      integers beyond 64 bits, so that the model of the load is exact on the
      files whose numeric cells are plain integers within 64 bits;
    - the backing file carries the seven columns of the store in the order
      [to_csv] writes them, and no line has more cells than the header; a
      file with another header or with a longer line is treated as
      unparseable;
    - a text column holds texts and missing values; pandas infers a numeric
      or boolean dtype for a column whose cells all look like numbers or
      booleans, so that the model of the load is exact on the catalogs in
      which every value of a text column is missing or can only be a text
      ([textos_llanos]);
    - a save that fails while writing leaves a leading part of the new
      content: whole lines, possibly followed by a line that is cut in the
      middle of a cell;
    - of what a page renders, the messages ([st.error], [st.success],
      [st.warning], [st.info]) are recorded, and the results of the queries
      are returned; headers, charts and styling are not modelled;
    - the values of the widgets (select boxes, sliders, inputs, buttons) are
      inputs of the page functions; of the building of the widgets, the
      exceptions raised on the product page are modelled; on the inventory
      page a submitted form presupposes that the widgets were built. *)

From Stdlib Require Import ZArith QArith Lia Ascii String.
From Stdlib Require Import DecimalString DecimalPos DecimalZ.
From stdpp Require Import base option list gmap strings sorting.

Local Open Scope string_scope.
Local Open Scope list_scope.

(** ** Data model *)

(** A text value of a column: [None] is the missing value. *)
Abbreviation texto := (option string).

Record Producto := mkProducto {
  id : Z;
  nombre : texto;
  categoria : texto;
  precio : Z;
  stock : Z;
  descripcion : texto;
  proveedor : texto
}.

(** A DataFrame is either [pd.DataFrame()], which has no column at all, or
    a table with the seven columns of the store and its rows in order. *)
Inductive DataFrame :=
  | SinColumnas
  | Tabla (fs : list Producto).

Definition filas (df : DataFrame) : list Producto :=
  match df with
  | SinColumnas => []
  | Tabla fs => fs
  end.

(** [df.empty]: true when any axis has length zero. *)
Definition empty (df : DataFrame) : bool :=
  match df with
  | Tabla (_ :: _) => false
  | _ => true
  end.

Definition UMBRAL_STOCK_BAJO : Z := 20.

Definition COLUMNAS : list string :=
  ["id"; "nombre"; "categoria"; "precio"; "stock"; "descripcion"; "proveedor"].

(** ** 64-bit integers *)

(** The columns [id], [precio] and [stock] hold numpy [int64] values. *)
Definition MIN_INT64 : Z := -9223372036854775808.

Definition MAX_INT64 : Z := 9223372036854775807.

Definition en_int64 (z : Z) : Prop := (MIN_INT64 <= z <= MAX_INT64)%Z.

#[global] Instance en_int64_dec (z : Z) : Decision (en_int64 z).
Proof. unfold en_int64. apply _. Defined.

(** The result of an [int64] addition or subtraction: numpy wraps around
    modulo [2^64], with a warning and without an exception. *)
Definition wrap64 (z : Z) : Z := ((z - MIN_INT64) mod 2 ^ 64 + MIN_INT64)%Z.

(** The largest integer [st.number_input] lets through. *)
Definition MAX_NUMBER_INPUT : Z := 9007199254740991.

(** ** The backing file *)

(** The content of the backing file: its lines, each a list of cells. *)
Abbreviation Archivo := (list (list string)).

(** Cells that [read_csv] reads as a missing value (pandas' default
    [na_values], the empty cell among them). *)
Definition na_values : list string :=
  [""; "#N/A"; "#N/A N/A"; "#NA"; "-1.#IND"; "-1.#QNAN"; "-NaN"; "-nan";
   "1.#IND"; "1.#QNAN"; "<NA>"; "N/A"; "NA"; "NULL"; "NaN"; "None"; "n/a";
   "nan"; "null"].

Definition es_na (s : string) : bool := bool_decide (s ∈ na_values).

(** A cell of a text column: an NA marker is a missing value, any other
    cell is its text.  (pandas reads a column whose cells all look like
    numbers as numbers; see [valor_de_texto].) *)
Definition leer_texto (s : string) : texto :=
  if es_na s then None else Some s.

Definition escribir_texto (t : texto) : string :=
  match t with
  | Some s => s
  | None => ""
  end.

(** [read_csv] followed by [astype(int)] on one cell of a numeric column:
    an optional sign followed by decimal digits is read as that integer,
    and anything else is taken not to coerce.  pandas reads more cells than
    these (a fraction is truncated, spaces and underscores are skipped) and
    wraps the integers beyond 64 bits; the model is exact on the columns
    whose cells are plain integers within 64 bits, and on the cells that can
    only be texts, which do not coerce ([texto_llano]). *)
Definition parse_int (s : string) : option Z :=
  match NilZero.int_of_string s with
  | Some d => Some (Z.of_int d)
  | None =>
      match s with
      | String "+" s' => (λ u, Z.of_int (Decimal.Pos u)) <$> NilZero.uint_of_string s'
      | _ => None
      end
  end.

(** How [to_csv] writes an integer. *)
Definition print_int (z : Z) : string := NilZero.string_of_int (Z.to_int z).

Inductive Excepcion :=
  | FileNotFoundError
  | EmptyDataError
  | ParserError
  | ValueError
  | KeyError
  | IndexError
  | OSError
  | TypeError
  | StreamlitAPIException.

Inductive Mensaje :=
  | MsgNoEncontrado
  | MsgErrorCarga (e : Excepcion)
  | MsgErrorGuardar (e : Excepcion)
  | MsgSinDatos
  | MsgObligatorios
  | MsgAgregado (nombre : string) (nuevo_id : option Z)
  | MsgStockInsuficiente (disponible : Z)
  | MsgAgregaron (cantidad nuevo_stock : Z)
  | MsgRedujeron (cantidad nuevo_stock : Z)
  | MsgEstablecido (nuevo_stock : Z)
  | MsgStockBajo
  | MsgSinResultados
  | MsgInformacion (stock_actual precio_actual : Z) (categoria_actual : option string).

Definition celda (r : list string) (i : nat) : string := r !!! i.

(** One line of the file as a row; a short line is padded with missing
    values by [read_csv], which [celda] does through its default. *)
Definition fila_de_celdas (r : list string) : option Producto :=
  i ← parse_int (celda r 0);
  p ← parse_int (celda r 3);
  s ← parse_int (celda r 4);
  Some {| id := i;
          nombre := leer_texto (celda r 1);
          categoria := leer_texto (celda r 2);
          precio := p;
          stock := s;
          descripcion := leer_texto (celda r 5);
          proveedor := leer_texto (celda r 6) |}.

(** [pd.read_csv]: the lines below the header, or the exception raised.
    Blank lines are skipped (pandas' default [skip_blank_lines=True]).  A
    line with more cells than the header is taken as unparseable; pandas
    raises on it as well unless every line is longer, in which case it
    takes the leading cells as an index. *)
Definition read_csv (f : option Archivo) : Excepcion + list (list string) :=
  match f with
  | None => inl FileNotFoundError
  | Some lineas =>
      match filter (fun r => r <> []) lineas with
      | [] => inl EmptyDataError
      | cabecera :: cuerpo =>
          if bool_decide (cabecera = COLUMNAS)
          then if forallb (fun r => (length r <=? length COLUMNAS)%nat) cuerpo
               then inr cuerpo
               else inl ParserError
          else inl ParserError
      end
  end.

Inductive Evento :=
  | st_error (m : Mensaje)
  | st_success (m : Mensaje)
  | st_warning (m : Mensaje)
  | st_info (m : Mensaje).

(** ** Catalog store *)

(** The body of [cargar_datos]: the three [astype(int)] coercions fail as
    soon as one cell of their column does not coerce, and every exception
    ends in the same handler. *)
Definition cargar_datos (f : option Archivo) : DataFrame * list Evento :=
  match read_csv f with
  | inl FileNotFoundError => (SinColumnas, [st_error MsgNoEncontrado])
  | inl e => (SinColumnas, [st_error (MsgErrorCarga e)])
  | inr cuerpo =>
      match mapM fila_de_celdas cuerpo with
      | Some fs => (Tabla fs, [])
      | None => (SinColumnas, [st_error (MsgErrorCarga ValueError)])
      end
  end.

Definition celdas_de_fila (p : Producto) : list string :=
  [print_int (id p); escribir_texto (nombre p); escribir_texto (categoria p);
   print_int (precio p); print_int (stock p); escribir_texto (descripcion p);
   escribir_texto (proveedor p)].

(** The lines [df.to_csv(..., index=False)] produces. *)
Definition to_csv (df : DataFrame) : Archivo :=
  match df with
  | SinColumnas => [[]]
  | Tabla fs => COLUMNAS :: map celdas_de_fila fs
  end.

(** What can go wrong while the file is written.  [to_csv] opens the
    backing file itself for writing, which truncates it, and the text
    reaches it in order: a failure on opening leaves the file as it was, a
    failure after [n] lines leaves those [n] lines, and a failure inside
    the line after them leaves in addition [k] cells of that line and the
    first [j] characters of its next cell. *)
Inductive Fallo :=
  | SinFallo
  | FalloAlAbrir
  | FalloAlEscribir (n : nat)
  | FalloEnCelda (n k j : nat).

(** A line cut after [k] cells and [j] characters of the next cell; nothing
    is left of a line of which nothing was written. *)
Definition linea_cortada (k j : nat) (linea : list string) : list (list string) :=
  match k, j, linea !! k with
  | O, O, _ => []
  | _, _, Some c => [take k linea ++ [substring 0 j c]]
  | _, _, None => [take k linea]
  end.

(** The leading part of the lines that is left by a cut. *)
Definition cortar (n k j : nat) (lineas : Archivo) : Archivo :=
  take n lineas ++
  match lineas !! n with
  | Some linea => linea_cortada k j linea
  | None => []
  end.

Definition escribir (lineas : Archivo) (fl : Fallo) (disco : option Archivo)
  : option Archivo * option Excepcion :=
  match fl with
  | SinFallo => (Some lineas, None)
  | FalloAlAbrir => (disco, Some OSError)
  | FalloAlEscribir n => (Some (take n lineas), Some OSError)
  | FalloEnCelda n k j => (Some (cortar n k j lineas), Some OSError)
  end.

Definition guardar_lineas (lineas : Archivo) (fl : Fallo) (disco : option Archivo)
  : bool * option Archivo * list Evento :=
  match escribir lineas fl disco with
  | (disco', None) => (true, disco', [])
  | (disco', Some e) => (false, disco', [st_error (MsgErrorGuardar e)])
  end.

Definition guardar_datos (df : DataFrame) (fl : Fallo) (disco : option Archivo)
  : bool * option Archivo * list Evento :=
  guardar_lineas (to_csv df) fl disco.

(** ** Column reductions *)

(** [Series.sum]. *)
Definition suma (l : list Z) : Z := foldr Z.add 0%Z l.

(** [Series.mean], as an exact rational; [None] is the NaN of an empty
    column.  The rounding to a binary float is not modelled. *)
Definition mean (l : list Z) : option Q :=
  match l with
  | [] => None
  | _ :: _ => Some (suma l # Pos.of_nat (length l))
  end.

(** [Series.max]; [None] is the NaN of an empty column. *)
Definition maximo (l : list Z) : option Z :=
  match l with
  | [] => None
  | x :: l' => Some (foldl Z.max x l')
  end.

(** [Series.min]; [None] is the NaN of an empty column. *)
Definition minimo (l : list Z) : option Z :=
  match l with
  | [] => None
  | x :: l' => Some (foldl Z.min x l')
  end.

(** [sorted(col.unique().tolist())] raises a [TypeError] when the column
    holds both a missing value, which is a float, and a text: the two do
    not compare. *)
Definition mezcla (col : list texto) : bool :=
  existsb (fun t => bool_decide (t = None)) col
  && existsb (fun t => bool_decide (is_Some t)) col.

(** [Series.idxmax] and [Series.idxmin] scan the column once and keep the
    position of the best value seen so far; a later value replaces it only
    when it is strictly better. *)
Fixpoint idx_scan (mejor : Z -> Z -> bool) (l : list Z) (i bi : nat) (bv : Z) : nat :=
  match l with
  | [] => bi
  | y :: l' =>
      if mejor y bv then idx_scan mejor l' (S i) i y
      else idx_scan mejor l' (S i) bi bv
  end.

Definition idxmax (l : list Z) : option nat :=
  match l with
  | [] => None
  | x :: l' => Some (idx_scan (fun y b => (b <? y)%Z) l' 1 0 x)
  end.

Definition idxmin (l : list Z) : option nat :=
  match l with
  | [] => None
  | x :: l' => Some (idx_scan (fun y b => (y <? b)%Z) l' 1 0 x)
  end.

(** Position [r] holds the value [v], no value of the column weighs more
    than [v], and every value before [r] weighs strictly less. *)
Definition optimo_hasta (peso : Z -> Z) (l : list Z) (r : nat) (v : Z) : Prop :=
  l !! r = Some v /\
  (forall x, x ∈ l -> (peso x <= peso v)%Z) /\
  (forall j x, (j < r)%nat -> l !! j = Some x -> (peso x < peso v)%Z).

(** [Series.nunique]: distinct values, missing ones left out. *)
Definition nunique (col : list texto) : nat :=
  length (remove_dups (omap (fun t => t) col)).

Definition valor (p : Producto) : Z := (precio p * stock p)%Z.

(** ** Query engine: [pagina_productos] *)

Inductive EstadoStock :=
  | StockTodos
  | StockBajo
  | StockSaludable.

Record Filtros := mkFiltros {
  categoria_seleccionada : string;
  proveedor_seleccionado : string;
  precio_min : Z;
  precio_max : Z;
  stock_filter : EstadoStock;
  busqueda : string
}.

(** What the page shows below the filters: the number of results in the
    sub-header and then either the table with its three metrics, or the
    notice that nothing was found. *)
Inductive Presentacion :=
  | ConResultados (n : nat) (tabla : list (Producto * bool))
      (stock_total valor_total : Z) (precio_prom : option Q)
  | SinResultados (n : nat) (aviso : Evento).

Section Consultas.

(** [Series.str.contains(pat, case=False)] on one present value: the
    pattern is a regular expression for pandas; it is a parameter here, and
    the exceptions it can raise are not modelled. *)
Variable str_contains : string -> string -> bool.

Definition coincide_nombre (pat : string) (p : Producto) : bool :=
  match nombre p with
  | Some s => str_contains pat s
  | None => false
  end.

Definition aplicar_filtros (fs : list Producto) (f : Filtros) : list Producto :=
  let df1 :=
    if bool_decide (categoria_seleccionada f <> "Todas")
    then filter (fun p => categoria p = Some (categoria_seleccionada f)) fs
    else fs in
  let df2 :=
    if bool_decide (proveedor_seleccionado f <> "Todos")
    then filter (fun p => proveedor p = Some (proveedor_seleccionado f)) df1
    else df1 in
  let df3 :=
    filter (fun p => (precio_min f <= precio p)%Z /\ (precio p <= precio_max f)%Z) df2 in
  let df4 :=
    match stock_filter f with
    | StockBajo => filter (fun p => (stock p <= UMBRAL_STOCK_BAJO)%Z) df3
    | StockSaludable => filter (fun p => (UMBRAL_STOCK_BAJO < stock p)%Z) df3
    | StockTodos => df3
    end in
  if bool_decide (busqueda f <> "")
  then filter (fun p => coincide_nombre (busqueda f) p = true) df4
  else df4.

Definition mostrar_resultados (df_filtrado : list Producto) : Presentacion :=
  if (0 <? length df_filtrado)%nat then
    ConResultados (length df_filtrado)
      (map (fun p => (p, bool_decide (stock p <= UMBRAL_STOCK_BAJO)%Z)) df_filtrado)
      (suma (map stock df_filtrado))
      (suma (map valor df_filtrado))
      (mean (map precio df_filtrado))
  else SinResultados (length df_filtrado) (st_info MsgSinResultados).

(** The widgets of the side bar are built before the filters run: the two
    select boxes sort the values of their column, and the slider takes the
    lowest and the highest price as its bounds, which are NaN on a table
    without rows ([int] raises) and which the slider refuses when they are
    equal or beyond the integers a widget can hold. *)
Definition construir_filtros (fs : list Producto) : option Excepcion :=
  if mezcla (map categoria fs) then Some TypeError
  else if mezcla (map proveedor fs) then Some TypeError
  else
    match minimo (map precio fs), maximo (map precio fs) with
    | Some lo, Some hi =>
        if (lo <? - MAX_NUMBER_INPUT)%Z || (MAX_NUMBER_INPUT <? hi)%Z
        then Some StreamlitAPIException
        else if (lo <? hi)%Z then None else Some StreamlitAPIException
    | _, _ => Some ValueError
    end.

Definition pagina_productos (df : DataFrame) (f : Filtros) : Excepcion + Presentacion :=
  match df with
  | SinColumnas => inl KeyError
  | Tabla fs =>
      match construir_filtros fs with
      | Some e => inl e
      | None => inr (mostrar_resultados (aplicar_filtros fs f))
      end
  end.

End Consultas.

(** ** Aggregation engine: [pagina_estadisticas] *)

Definition str_le (a b : string) : Prop := String.leb a b = true.

#[global] Instance str_le_dec : RelDecision str_le.
Proof. intros a b. unfold str_le. apply _. Defined.

(** The group keys of [df.groupby(col)]: the distinct values of the column,
    sorted, the missing ones dropped (pandas' default [dropna=True]). *)
Definition claves (col : list texto) : list string :=
  merge_sort str_le (remove_dups (omap (fun t => t) col)).

Definition groupby (col : Producto -> texto) (fs : list Producto)
  : list (string * list Producto) :=
  map (fun k => (k, filter (fun p => col p = Some k) fs)) (claves (map col fs)).

Record Grupo := mkGrupo {
  clave : string;
  cantidad_productos : nat;
  stock_total : Z;
  precio_promedio : option Q;
  valor_total : Z
}.

Definition analisis_categoria (fs : list Producto) : list Grupo :=
  map (fun '(k, g) =>
         {| clave := k;
            cantidad_productos := length (map id g);
            stock_total := suma (map stock g);
            precio_promedio := mean (map precio g);
            valor_total := suma (map valor g) |})
      (groupby categoria fs).

Record GrupoProveedor := mkGrupoProveedor {
  gp_proveedor : string;
  gp_productos : nat;
  gp_stock_total : Z;
  gp_categorias : nat;
  gp_valor_total : Z
}.

(** The rows of the supplier table as [groupby('proveedor')] builds them,
    one per supplier; [sort_values('Productos', ascending=False)] then puts
    them in display order, which is not modelled. *)
Definition analisis_proveedor (fs : list Producto) : list GrupoProveedor :=
  map (fun '(k, g) =>
         {| gp_proveedor := k;
            gp_productos := length (map id g);
            gp_stock_total := suma (map stock g);
            gp_categorias := nunique (map categoria g);
            gp_valor_total := suma (map valor g) |})
      (groupby proveedor fs).

(** The stock of the rows of one category, and the rows that have a
    category at all. *)
Definition stock_de_grupo (fs : list Producto) (k : string) : Z :=
  suma (map stock (filter (fun p => categoria p = Some k) fs)).

Definition con_categoria (fs : list Producto) : list Producto :=
  filter (fun p => is_Some (categoria p)) fs.

(** [df.loc[df['precio'].idxmax()]] and its twin. *)
Definition mas_caro (fs : list Producto) : option Producto :=
  i ← idxmax (map precio fs); fs !! i.

Definition mas_barato (fs : list Producto) : option Producto :=
  i ← idxmin (map precio fs); fs !! i.

Record Estadisticas := mkEstadisticas {
  e_analisis_categoria : list Grupo;
  e_analisis_proveedor : list GrupoProveedor;
  e_mas_caro : Producto;
  e_mas_barato : Producto
}.

(** The value column of each table is assigned from [groupby(...).apply],
    which returns an empty DataFrame instead of a column when there is no
    group: the assignment then raises a [ValueError]. *)
Definition pagina_estadisticas (df : DataFrame) : Excepcion + Estadisticas :=
  match df with
  | SinColumnas => inl KeyError
  | Tabla fs =>
      match groupby categoria fs, groupby proveedor fs with
      | [], _ => inl ValueError
      | _, [] => inl ValueError
      | _, _ =>
          match mas_caro fs, mas_barato fs with
          | Some c, Some b =>
              inr {| e_analisis_categoria := analisis_categoria fs;
                     e_analisis_proveedor := analisis_proveedor fs;
                     e_mas_caro := c;
                     e_mas_barato := b |}
          | _, _ => inl ValueError
          end
      end
  end.

(** ** Mutation service: [pagina_gestionar] *)

(** The backing file and the memo of [@st.cache_data]: the DataFrame
    [cargar_datos] returned and the messages it rendered, which a cache hit
    replays. *)
Record Mundo := mkMundo {
  disco : option Archivo;
  cache : option (DataFrame * list Evento)
}.

Inductive Fin :=
  | Continua
  | Reinicia
  | Lanza (e : Excepcion).

(** The state a page function leaves behind: the DataFrame it was given
    (mutated in place by the stock update), the file and the memo, what it
    rendered, and how it ended ([st.rerun()] stops the script). *)
Record Gestion := mkGestion {
  g_df : DataFrame;
  g_mundo : Mundo;
  g_eventos : list Evento;
  g_fin : Fin
}.

Record FormAgregar := mkFormAgregar {
  f_nombre : string;
  f_categoria : texto;
  f_precio : Z;
  f_stock : Z;
  f_proveedor : texto;
  f_descripcion : string
}.

Inductive Operacion :=
  | Recepcion (cantidad : Z)
  | Venta (cantidad : Z)
  | Establecer (nuevo_stock : Z).

Inductive Envio :=
  | SinEnvio
  | EnviaAgregar (f : FormAgregar)
  | EnviaActualizar (op : Operacion).

(** [producto_seleccionado] is [None] when the select box has no option. *)
Record EntradaGestionar := mkEntradaGestionar {
  envio : Envio;
  producto_seleccionado : option texto
}.

Definition nuevo_producto (nuevo_id : Z) (f : FormAgregar) : Producto :=
  {| id := nuevo_id;
     nombre := Some (f_nombre f);
     categoria := f_categoria f;
     precio := f_precio f;
     stock := f_stock f;
     descripcion := Some (f_descripcion f);
     proveedor := f_proveedor f |}.

(** [pd.concat([df, nuevo_producto], ignore_index=True)]. *)
Definition pd_concat (fs : list Producto) (p : Producto) : DataFrame :=
  Tabla (fs ++ [p]).

(** The line written for a new row whose id is missing: on a table without
    rows [df['id'].max()] is NaN and so is [nuevo_id]. *)
Definition celdas_sin_id (f : FormAgregar) : list string :=
  [""; f_nombre f; escribir_texto (f_categoria f); print_int (f_precio f);
   print_int (f_stock f); f_descripcion f; escribir_texto (f_proveedor f)].

Definition form_agregar (fs : list Producto) (f : FormAgregar) (fl : Fallo) (w : Mundo)
  : Gestion :=
  if bool_decide (f_nombre f = "") || bool_decide (f_descripcion f = "") then
    {| g_df := Tabla fs; g_mundo := w;
       g_eventos := [st_error MsgObligatorios]; g_fin := Continua |}
  else
    let nuevo_id := (fun m => wrap64 (m + 1)) <$> maximo (map id fs) in
    let guardado :=
      match nuevo_id with
      | Some i => guardar_datos (pd_concat fs (nuevo_producto i f)) fl (disco w)
      | None => guardar_lineas (COLUMNAS :: map celdas_de_fila fs ++ [celdas_sin_id f])
                  fl (disco w)
      end in
    match guardado with
    | (true, d, evs) =>
        {| g_df := Tabla fs;
           g_mundo := {| disco := d; cache := None |};
           g_eventos := evs ++ [st_success (MsgAgregado (f_nombre f) nuevo_id)];
           g_fin := Reinicia |}
    | (false, d, evs) =>
        {| g_df := Tabla fs;
           g_mundo := {| disco := d; cache := cache w |};
           g_eventos := evs; g_fin := Continua |}
    end.

(** [dict(zip(df['nombre'], df['id']))]: the pairs are inserted in row
    order, a later pair replacing an earlier one with the same key. *)
Definition productos_dict (fs : list Producto) : gmap texto Z :=
  foldl (fun d '(n, i) => <[n := i]> d) ∅ (zip (map nombre fs) (map id fs)).

(** Truth value of the selection in [if producto_seleccionado:]. *)
Definition verdadero (sel : option texto) : bool :=
  match sel with
  | None => false
  | Some (Some s) => negb (bool_decide (s = ""))
  | Some None => true
  end.

Definition con_stock (p : Producto) (s : Z) : Producto :=
  {| id := id p; nombre := nombre p; categoria := categoria p;
     precio := precio p; stock := s; descripcion := descripcion p;
     proveedor := proveedor p |}.

(** [df.loc[df['id'] == producto_id, 'stock'] = nuevo_stock]. *)
Definition asignar_stock (producto_id nuevo_stock : Z) (fs : list Producto)
  : list Producto :=
  map (fun p => if bool_decide (id p = producto_id) then con_stock p nuevo_stock else p) fs.

(** [df[df['id'] == producto_id].iloc[0]]. *)
Definition producto_por_id (producto_id : Z) (fs : list Producto) : option Producto :=
  head (filter (fun p => id p = producto_id) fs).

(** The stock to write and the message of the operation; [None] with the
    error rendered when the sale exceeds the stock.  The stock of the row is
    an [int64], and so are its sum and its difference with the quantity. *)
Definition calcular_stock (producto : Producto) (op : Operacion)
  : option (Z * Mensaje) * list Evento :=
  match op with
  | Recepcion cantidad =>
      let nuevo_stock := wrap64 (stock producto + cantidad) in
      (Some (nuevo_stock, MsgAgregaron cantidad nuevo_stock), [])
  | Venta cantidad =>
      if (stock producto <? cantidad)%Z
      then (None, [st_error (MsgStockInsuficiente (stock producto))])
      else
        let nuevo_stock := wrap64 (stock producto - cantidad) in
        (Some (nuevo_stock, MsgRedujeron cantidad nuevo_stock), [])
  | Establecer nuevo_stock =>
      (Some (nuevo_stock, MsgEstablecido nuevo_stock), [])
  end.

Definition form_actualizar (fs : list Producto) (producto_id : Z) (producto : Producto)
    (op : Operacion) (fl : Fallo) (w : Mundo) : Gestion :=
  match calcular_stock producto op with
  | (None, evs) =>
      {| g_df := Tabla fs; g_mundo := w; g_eventos := evs; g_fin := Continua |}
  | (Some (nuevo_stock, mensaje), evs) =>
      let df' := Tabla (asignar_stock producto_id nuevo_stock fs) in
      match guardar_datos df' fl (disco w) with
      | (true, d, evs') =>
          {| g_df := df';
             g_mundo := {| disco := d; cache := None |};
             g_eventos :=
               evs ++ evs' ++ [st_success mensaje] ++
               (if (nuevo_stock <=? UMBRAL_STOCK_BAJO)%Z
                then [st_warning MsgStockBajo] else []);
             g_fin := Reinicia |}
      | (false, d, evs') =>
          {| g_df := df';
             g_mundo := {| disco := d; cache := cache w |};
             g_eventos := evs ++ evs'; g_fin := Continua |}
      end
  end.

Definition tras_eventos (evs : list Evento) (g : Gestion) : Gestion :=
  {| g_df := g_df g; g_mundo := g_mundo g;
     g_eventos := evs ++ g_eventos g; g_fin := g_fin g |}.

(** The second tab: the product is resolved by name through
    [productos_dict], its current values are shown, then the update form
    runs if it was submitted. *)
Definition tab_actualizar (fs : list Producto) (e : EntradaGestionar) (fl : Fallo)
    (w : Mundo) : Gestion :=
  let quieto fin :=
    {| g_df := Tabla fs; g_mundo := w; g_eventos := []; g_fin := fin |} in
  if verdadero (producto_seleccionado e) then
    match producto_seleccionado e ≫= (fun sel => productos_dict fs !! sel) with
    | None => quieto (Lanza KeyError)
    | Some producto_id =>
        match producto_por_id producto_id fs with
        | None => quieto (Lanza IndexError)
        | Some producto =>
            tras_eventos
              [st_info (MsgInformacion (stock producto) (precio producto)
                          (categoria producto))]
              match envio e with
              | EnviaActualizar op => form_actualizar fs producto_id producto op fl w
              | _ => quieto Continua
              end
        end
    end
  else quieto Continua.

(** The two tabs in order; a rerun or an exception in the first stops the
    script.  The select boxes of the add form are taken as built: the
    [TypeError] that [sorted] raises on a column mixing missing values and
    texts is not modelled here (it is in [construir_filtros]). *)
Definition pagina_gestionar (df : DataFrame) (e : EntradaGestionar) (fl : Fallo)
    (w : Mundo) : Gestion :=
  match df with
  | SinColumnas =>
      {| g_df := df; g_mundo := w; g_eventos := []; g_fin := Lanza KeyError |}
  | Tabla fs =>
      let g1 :=
        match envio e with
        | EnviaAgregar f => form_agregar fs f fl w
        | _ => {| g_df := df; g_mundo := w; g_eventos := []; g_fin := Continua |}
        end in
      match g_fin g1 with
      | Continua => tras_eventos (g_eventos g1) (tab_actualizar fs e fl (g_mundo g1))
      | _ => g1
      end
  end.

(** The amounts the widgets of the update form let through: a quantity is
    at least 1, a stock that is set at least 0, and neither is above the
    largest integer of a number input. *)
Definition operacion_valida (op : Operacion) : Prop :=
  match op with
  | Recepcion cantidad => (0 < cantidad <= MAX_NUMBER_INPUT)%Z
  | Venta cantidad => (0 < cantidad <= MAX_NUMBER_INPUT)%Z
  | Establecer nuevo_stock => (0 <= nuevo_stock <= MAX_NUMBER_INPUT)%Z
  end.

(** An add form that passes the validation, with the numbers its widgets
    let through. *)
Definition formulario_valido (f : FormAgregar) : Prop :=
  f_nombre f <> "" /\ f_descripcion f <> "" /\
  (1 <= f_precio f <= MAX_NUMBER_INPUT)%Z /\ (0 <= f_stock f <= MAX_NUMBER_INPUT)%Z.

Definition stock_no_negativo (fs : list Producto) : Prop :=
  Forall (fun p => (0 <= stock p)%Z) fs.

(** ** The entry point *)

Record Metricas := mkMetricas {
  m_total_productos : nat;
  m_stock_total : Z;
  m_valor_total : Z;
  m_categorias : nat;
  m_productos_bajo_stock : nat
}.

(** [mostrar_metricas_principales]; the charts of the start page are not
    modelled. *)
Definition pagina_inicio (df : DataFrame) : Excepcion + Metricas :=
  match df with
  | SinColumnas => inl KeyError
  | Tabla fs =>
      inr {| m_total_productos := length fs;
             m_stock_total := suma (map stock fs);
             m_valor_total := suma (map valor fs);
             m_categorias := nunique (map categoria fs);
             m_productos_bajo_stock :=
               length (filter (fun p => (stock p <= UMBRAL_STOCK_BAJO)%Z) fs) |}
  end.

Inductive Navegacion :=
  | Inicio
  | ExplorarProductos (f : Filtros)
  | VerEstadisticas
  | GestionarInventario (e : EntradaGestionar).

Inductive Vista :=
  | VistaInicio (m : Metricas)
  | VistaProductos (p : Presentacion)
  | VistaEstadisticas (e : Estadisticas)
  | VistaGestionar (df : DataFrame).

Inductive Final :=
  | Abortado
  | Mostrado (v : Vista)
  | Reiniciado
  | Lanzado (e : Excepcion).

Record Ejecucion := mkEjecucion {
  mundo : Mundo;
  eventos : list Evento;
  final : Final
}.

(** [cargar_datos] behind [@st.cache_data]. *)
Definition cargar_datos_memo (w : Mundo) : DataFrame * list Evento * Mundo :=
  match cache w with
  | Some (df, evs) => (df, evs, w)
  | None =>
      let '(df, evs) := cargar_datos (disco w) in
      (df, evs, {| disco := disco w; cache := Some (df, evs) |})
  end.

Definition de_excepcion {A} (v : A -> Vista) (r : Excepcion + A) : Final :=
  match r with
  | inl e => Lanzado e
  | inr a => Mostrado (v a)
  end.

Section Principal.

Variable str_contains : string -> string -> bool.

(** The page chosen in the side bar runs on the loaded DataFrame. *)
Definition despachar (df : DataFrame) (nav : Navegacion) (fl : Fallo) (w : Mundo)
  : Ejecucion :=
  match nav with
  | Inicio =>
      {| mundo := w; eventos := [];
         final := de_excepcion VistaInicio (pagina_inicio df) |}
  | ExplorarProductos f =>
      {| mundo := w; eventos := [];
         final := de_excepcion VistaProductos (pagina_productos str_contains df f) |}
  | VerEstadisticas =>
      {| mundo := w; eventos := [];
         final := de_excepcion VistaEstadisticas (pagina_estadisticas df) |}
  | GestionarInventario e =>
      let g := pagina_gestionar df e fl w in
      {| mundo := g_mundo g; eventos := g_eventos g;
         final := match g_fin g with
                  | Continua => Mostrado (VistaGestionar (g_df g))
                  | Reinicia => Reiniciado
                  | Lanza ex => Lanzado ex
                  end |}
  end.

Definition main (w : Mundo) (nav : Navegacion) (fl : Fallo) : Ejecucion :=
  let '(df, evs, w1) := cargar_datos_memo w in
  if empty df then
    {| mundo := w1; eventos := evs ++ [st_error MsgSinDatos]; final := Abortado |}
  else
    let r := despachar df nav fl w1 in
    {| mundo := mundo r; eventos := evs ++ eventos r; final := final r |}.

(** One [add_product] call: a run of the application in which the add
    form is submitted.  It is successful when the run ends in the rerun
    that follows the success message; the result is then the id the
    message reports and the state left behind. *)
Definition add_product (w : Mundo) (c : FormAgregar * option texto * Fallo)
  : option (Z * Mundo) :=
  let '(f, sel, fl) := c in
  let r := main w (GestionarInventario
                     {| envio := EnviaAgregar f; producto_seleccionado := sel |}) fl in
  match final r, last (eventos r) with
  | Reiniciado, Some (st_success (MsgAgregado _ (Some i))) => Some (i, mundo r)
  | _, _ => None
  end.

(** Consecutive successful calls, each run starting from the state the
    previous one left. *)
Fixpoint add_products (w : Mundo) (cs : list (FormAgregar * option texto * Fallo))
  : option (list Z * Mundo) :=
  match cs with
  | [] => Some ([], w)
  | c :: cs' =>
      '(i, w1) ← add_product w c;
      '(ids, w2) ← add_products w1 cs';
      Some (i :: ids, w2)
  end.

End Principal.

(** The DataFrame a run of the application works on. *)
Definition catalogo_cargado (w : Mundo) : DataFrame := fst (fst (cargar_datos_memo w)).

(** A row as it is read back from the line written for it: the integers are
    the same, a text that is an NA marker comes back missing. *)
Definition releer (p : Producto) : Producto :=
  {| id := id p;
     nombre := leer_texto (escribir_texto (nombre p));
     categoria := leer_texto (escribir_texto (categoria p));
     precio := precio p;
     stock := stock p;
     descripcion := leer_texto (escribir_texto (descripcion p));
     proveedor := leer_texto (escribir_texto (proveedor p)) |}.

(** The ids [m+1 .. m+n]. *)
Definition ids_desde (m : Z) (n : nat) : list Z :=
  map (fun k => (m + Z.of_nat k)%Z) (seq 1 n).

Definition ejemplo_archivo : Archivo :=
  [COLUMNAS;
   ["1"; "Espada"; "Armas"; "100"; "5"; "Hoja de acero"; "Herrero"];
   ["2"; "Pocion"; "Pociones"; "50"; "30"; "Cura heridas"; "Alquimista"]].

Definition ejemplo_df : DataFrame :=
  Tabla [mkProducto 1 (Some "Espada") (Some "Armas") 100 5
           (Some "Hoja de acero") (Some "Herrero");
         mkProducto 2 (Some "Pocion") (Some "Pociones") 50 30
           (Some "Cura heridas") (Some "Alquimista")].

(** A file whose second row has a stock that is not a number. *)
Definition archivo_stock_ilegible : Archivo :=
  [COLUMNAS;
   ["1"; "Espada"; "Armas"; "100"; "5"; "Hoja de acero"; "Herrero"];
   ["2"; "Pocion"; "Pociones"; "50"; "muchas"; "Cura heridas"; "Alquimista"]].

(** Four products, two of them at the highest price and two at the
    lowest. *)
Definition catalogo_empates : list Producto :=
  [mkProducto 1 (Some "Daga") (Some "Armas") 10 3 (Some "Corta") (Some "Herrero");
   mkProducto 2 (Some "Espada") (Some "Armas") 90 5 (Some "Larga") (Some "Herrero");
   mkProducto 3 (Some "Hacha") (Some "Armas") 90 1 (Some "Pesada") (Some "Herrero");
   mkProducto 4 (Some "Honda") (Some "Armas") 10 9 (Some "Ligera") (Some "Curtidor")].


Definition espada : Producto :=
  mkProducto 1 (Some "Espada") (Some "Armas") 100 5 (Some "Hoja de acero") (Some "Herrero").

Definition pocion : Producto :=
  mkProducto 2 (Some "Pocion") (Some "Pociones") 50 30 (Some "Cura heridas")
    (Some "Alquimista").

Definition mundo_ejemplo : Mundo := {| disco := Some ejemplo_archivo; cache := None |}.

(** A file whose second row has no category. *)
Definition archivo_sin_categoria : Archivo :=
  [COLUMNAS;
   ["1"; "Espada"; "Armas"; "100"; "5"; "Hoja de acero"; "Herrero"];
   ["3"; "Escudo"; ""; "80"; "7"; "De roble"; "Carpintero"]].

Definition catalogo_homonimos : list Producto :=
  [mkProducto 1 (Some "Espada") (Some "Armas") 100 5 (Some "De hierro") (Some "Herrero");
   mkProducto 2 (Some "Pocion") (Some "Pociones") 50 30 (Some "Cura heridas")
     (Some "Alquimista");
   mkProducto 3 (Some "Espada") (Some "Armas") 300 8 (Some "De acero") (Some "Armero")].

Definition form_escudo : FormAgregar :=
  {| f_nombre := "Escudo"; f_categoria := Some "Armas"; f_precio := 80; f_stock := 7;
     f_proveedor := Some "Herrero"; f_descripcion := "De roble" |}.

Definition form_arco : FormAgregar :=
  {| f_nombre := "Arco"; f_categoria := Some "Armas"; f_precio := 120; f_stock := 4;
     f_proveedor := Some "Herrero"; f_descripcion := "De tejo" |}.

(** The state after the two forms were submitted one after the other. *)
Definition mundo_tras_altas : Mundo :=
  {| disco := Some
       (ejemplo_archivo ++
        [["3"; "Escudo"; "Armas"; "80"; "7"; "De roble"; "Herrero"];
         ["4"; "Arco"; "Armas"; "120"; "4"; "De tejo"; "Herrero"]]);
     cache := None |}.

Definition mundo_sin_archivo : Mundo := {| disco := None; cache := None |}.

Definition mundo_sin_filas : Mundo := {| disco := Some [COLUMNAS]; cache := None |}.

Definition alta_escudo : Navegacion :=
  GestionarInventario {| envio := EnviaAgregar form_escudo; producto_seleccionado := None |}.

Definition catalogo_sin_categoria : list Producto :=
  [espada;
   mkProducto 3 (Some "Escudo") None 80 7 (Some "De roble") (Some "Carpintero")].

(** ** Path of the backing file: [obtener_ruta_csv] *)

Definition rutas_posibles : list string :=
  ["../datos/tienda_aurelion.csv";
   "datos/tienda_aurelion.csv";
   "Sprint 1/datos/tienda_aurelion.csv"].

(** The loop over the candidate paths; [existe] is [os.path.exists]. *)
Fixpoint buscar_ruta (existe : string -> bool) (rutas : list string) : option string :=
  match rutas with
  | [] => None
  | ruta :: resto => if existe ruta then Some ruta else buscar_ruta existe resto
  end.

Definition obtener_ruta_csv (existe : string -> bool) : string :=
  match buscar_ruta existe rutas_posibles with
  | Some ruta => ruta
  | None => "../datos/tienda_aurelion.csv"
  end.

(** ** The filters of [pagina_productos] as one predicate *)

(** The conjunction the five filters of the page amount to; a filter that
    is switched off lets every row through. *)
Definition cumple (str_contains : string -> string -> bool) (f : Filtros) (p : Producto)
  : bool :=
  (bool_decide (categoria_seleccionada f = "Todas")
   || bool_decide (categoria p = Some (categoria_seleccionada f)))
  && (bool_decide (proveedor_seleccionado f = "Todos")
      || bool_decide (proveedor p = Some (proveedor_seleccionado f)))
  && bool_decide (precio_min f <= precio p)%Z
  && bool_decide (precio p <= precio_max f)%Z
  && match stock_filter f with
     | StockTodos => true
     | StockBajo => bool_decide (stock p <= UMBRAL_STOCK_BAJO)%Z
     | StockSaludable => bool_decide (UMBRAL_STOCK_BAJO < stock p)%Z
     end
  && (bool_decide (busqueda f = "") || coincide_nombre str_contains (busqueda f) p).

(** The same filters with another choice of the stock state. *)
Definition con_estado (f : Filtros) (e : EstadoStock) : Filtros :=
  {| categoria_seleccionada := categoria_seleccionada f;
     proveedor_seleccionado := proveedor_seleccionado f;
     precio_min := precio_min f;
     precio_max := precio_max f;
     stock_filter := e;
     busqueda := busqueda f |}.

Definition filtro_todo : Filtros :=
  {| categoria_seleccionada := "Todas"; proveedor_seleccionado := "Todos";
     precio_min := 10; precio_max := 90; stock_filter := StockTodos;
     busqueda := "" |}.

(** ** Rows with a value *)

(** The rows that have a value in a text column. *)
Definition con_valor (col : Producto -> texto) (fs : list Producto) : list Producto :=
  filter (fun p => is_Some (col p)) fs.

(** ** The charts of [pagina_inicio] *)

Inductive RangoPrecio :=
  | Economico
  | Medio
  | Premium.

#[global] Instance RangoPrecio_eq_dec : EqDecision RangoPrecio.
Proof. solve_decision. Defined.

(** [pd.cut(df['precio'], bins=[0, 500, 2000, 10000], labels=...)] on one
    price: the bins are open on the left and closed on the right, and a
    price outside of them has no bin (NaN). *)
Definition pd_cut (x : Z) : option RangoPrecio :=
  if bool_decide (0 < x <= 500)%Z then Some Economico
  else if bool_decide (500 < x <= 2000)%Z then Some Medio
  else if bool_decide (2000 < x <= 10000)%Z then Some Premium
  else None.

Definition precio_dist (fs : list Producto) : list (option RangoPrecio) :=
  map (fun p => pd_cut (precio p)) fs.

(** The height of one bar of [precio_dist.value_counts()]: the rows in the
    bin, the rows without a bin not being counted anywhere.  The order of
    the bars is not modelled. *)
Definition value_counts (col : list (option RangoPrecio)) (r : RangoPrecio) : nat :=
  length (filter (fun x => x = Some r) col).

(** A stable sort by decreasing key: a row goes before the rows after it
    that do not have a greater key. *)
Fixpoint insertar_desc {A} (clave_de : A -> Z) (x : A) (l : list A) : list A :=
  match l with
  | [] => [x]
  | y :: l' =>
      if (clave_de x <? clave_de y)%Z then y :: insertar_desc clave_de x l'
      else x :: y :: l'
  end.

Definition ordenar_desc {A} (clave_de : A -> Z) (l : list A) : list A :=
  foldr (insertar_desc clave_de) [] l.

(** [x] does not have a smaller key than [y]. *)
Definition no_menor {A} (clave_de : A -> Z) (x y : A) : Prop :=
  (clave_de y <= clave_de x)%Z.

(** [df.nlargest(n, col)]: the [n] rows with the greatest values, greatest
    first, the earlier row first among equal values ([keep='first']). *)
Definition nlargest {A} (n : nat) (clave_de : A -> Z) (l : list A) : list A :=
  take n (ordenar_desc clave_de l).

(** The five most valuable products with their total value. *)
Definition top5 (fs : list Producto) : list (texto * Z) :=
  map (fun p => (nombre p, valor p)) (nlargest 5 valor fs).

(** The pages and submissions that only read: every page but the
    inventory page, and the inventory page when no form is submitted. *)
Definition solo_lectura (nav : Navegacion) : bool :=
  match nav with
  | GestionarInventario e =>
      match envio e with
      | SinEnvio => true
      | _ => false
      end
  | _ => true
  end.

(** ** Where the model of the load is exact *)

(** The first letters of a cell that pandas can only read as a text: the
    letters that begin neither [inf] or [nan], which are numbers, nor [true]
    or [false], nor an NA marker such as [NA], [null] or [None]. *)
Definition letras_llanas : list ascii :=
  list_ascii_of_string "abcdeghjklmopqrsuvwxyzABCDEGHJKLMOPQRSUVWXYZ".

Definition texto_llano (s : string) : bool :=
  match s with
  | String a _ => existsb (Ascii.eqb a) letras_llanas
  | EmptyString => false
  end.

(** A cell of a numeric column that does not coerce to an integer whatever
    the other cells of the column are: a missing value, which [astype(int)]
    refuses, or a cell that can only be a text. *)
Definition no_entero (c : string) : bool := es_na c || texto_llano c.

(** A value of a text column that pandas holds as the model does, whatever
    the other cells of the column are: it is missing or it can only be a
    text.  (A column whose cells all look like numbers gets a numeric
    dtype, and [read_csv] infers the dtype of a long file piece by
    piece.) *)
Definition valor_de_texto (t : texto) : bool :=
  match t with
  | Some s => texto_llano s
  | None => true
  end.

(** The integers of the catalog fit in 64 bits. *)
Definition enteros_int64 (fs : list Producto) : Prop :=
  Forall (fun p => en_int64 (id p) /\ en_int64 (precio p) /\ en_int64 (stock p)) fs.

Definition textos_llanos (fs : list Producto) : Prop :=
  Forall (fun p => valor_de_texto (nombre p) = true /\
                   valor_de_texto (categoria p) = true /\
                   valor_de_texto (descripcion p) = true /\
                   valor_de_texto (proveedor p) = true) fs.

(** A catalog as pandas holds it: the integers fit in 64 bits and the
    values of the four text columns are texts or missing. *)
Definition catalogo_fiel (fs : list Producto) : Prop :=
  enteros_int64 fs /\ textos_llanos fs.

(** A numeric cell written the way [to_csv] writes an [int64]: no plus sign,
    no leading zero, no space. *)
Definition entero_canonico (c : string) : bool :=
  match parse_int c with
  | Some z => bool_decide (print_int z = c) && bool_decide (en_int64 z)
  | None => false
  end.

(** A text cell written the way [to_csv] writes a missing value or a text
    that can only be a text: it is empty, or it begins with one of the
    letters above (which no NA marker does). *)
Definition texto_canonico (c : string) : bool :=
  bool_decide (c = "") || texto_llano c.

Definition fila_canonica (r : list string) : bool :=
  bool_decide (length r = length COLUMNAS)
  && entero_canonico (celda r 0) && texto_canonico (celda r 1)
  && texto_canonico (celda r 2) && entero_canonico (celda r 3)
  && entero_canonico (celda r 4) && texto_canonico (celda r 5)
  && texto_canonico (celda r 6).

(** A well-formed backing file in the writing of [to_csv]: the header, then
    one line of seven cells per product, the integers and the texts written
    as above. *)
Definition archivo_canonico (f : Archivo) : bool :=
  match f with
  | [] => false
  | cabecera :: cuerpo => bool_decide (cabecera = COLUMNAS) && forallb fila_canonica cuerpo
  end.


(** A product whose stock is the largest 64-bit integer, and the file that
    holds it. *)
Definition espada_al_limite : Producto :=
  mkProducto 1 (Some "Espada") (Some "Armas") 100 MAX_INT64 (Some "Hoja de acero")
    (Some "Herrero").

Definition mundo_stock_al_limite : Mundo :=
  {| disco := Some [COLUMNAS;
                    ["1"; "Espada"; "Armas"; "100"; "9223372036854775807";
                     "Hoja de acero"; "Herrero"]];
     cache := None |}.

(** A file whose second row has no price. *)
Definition archivo_sin_precio : Archivo :=
  [COLUMNAS;
   ["1"; "Espada"; "Armas"; "100"; "5"; "Hoja de acero"; "Herrero"];
   ["2"; "Pocion"; "Pociones"; ""; "30"; "Cura heridas"; "Alquimista"]].

(** A file whose two products carry the lowest and the highest 64-bit
    integer as their ids. *)
Definition archivo_ids_extremos : Archivo :=
  [COLUMNAS;
   ["-9223372036854775808"; "Daga"; "Armas"; "10"; "3"; "Corta"; "Herrero"];
   ["9223372036854775807"; "Espada"; "Armas"; "100"; "5"; "Hoja de acero"; "Herrero"]].

Definition mundo_ids_extremos : Mundo :=
  {| disco := Some archivo_ids_extremos; cache := None |}.

(** A catalog of two products without a category and without a supplier. *)
Definition catalogo_sin_grupos : list Producto :=
  [mkProducto 1 (Some "Espada") None 100 5 (Some "Hoja de acero") None;
   mkProducto 2 (Some "Pocion") None 50 30 (Some "Cura heridas") None].

(** * Properties *)

(** ** Catalog store *)

Module Store.

Lemma to_int_not_nil (z : Z) :
  Z.to_int z <> Decimal.Pos Decimal.Nil /\ Z.to_int z <> Decimal.Neg Decimal.Nil.
Proof.
  destruct z as [|q|q]; simpl; split; try discriminate;
    intros [= H]; by apply (Unsigned.to_uint_nonnil q).
Qed.

Lemma parse_print (z : Z) : parse_int (print_int z) = Some z.
Proof.
  unfold parse_int, print_int.
  destruct (to_int_not_nil z) as [Hp Hn].
  rewrite (NilZero.isi _ Hp Hn). f_equal. apply DecimalZ.of_to.
Qed.

Lemma leer_escribir_leer (s : string) :
  leer_texto (escribir_texto (leer_texto s)) = leer_texto s.
Proof.
  unfold leer_texto. destruct (es_na s) eqn:E; simpl.
  - reflexivity.
  - by rewrite E.
Qed.

(** A row that came out of the file is read back unchanged from the line
    written for it. *)
Lemma fila_releida (r : list string) (p : Producto) :
  fila_de_celdas r = Some p -> fila_de_celdas (celdas_de_fila p) = Some p.
Proof.
  unfold fila_de_celdas. intros H.
  destruct (parse_int (celda r 0)) as [i|] eqn:Ei; [|discriminate].
  destruct (parse_int (celda r 3)) as [q|] eqn:Eq; [|discriminate].
  destruct (parse_int (celda r 4)) as [t|] eqn:Et; [|discriminate].
  simpl in H. injection H as <-.
  unfold celdas_de_fila, celda; simpl.
  rewrite !parse_print; simpl.
  by rewrite !leer_escribir_leer.
Qed.

Lemma celdas_no_vacias (fs : list Producto) :
  filter (fun r => r <> []) (map celdas_de_fila fs) = map celdas_de_fila fs.
Proof.
  induction fs as [|p fs IH]; [done|]. simpl map.
  rewrite filter_cons, decide_True by done. by rewrite IH.
Qed.

Lemma read_csv_to_csv (fs : list Producto) :
  read_csv (Some (to_csv (Tabla fs))) = inr (map celdas_de_fila fs).
Proof.
  unfold read_csv, to_csv.
  rewrite filter_cons. rewrite decide_True by (unfold COLUMNAS; done).
  rewrite celdas_no_vacias.
  rewrite bool_decide_eq_true_2 by reflexivity.
  replace (forallb _ (map celdas_de_fila fs)) with true; [done|].
  symmetry. induction fs as [|p fs IH]; [done|]. exact IH.
Qed.

Lemma cargado_de_cuerpo (f : Archivo) (fs : list Producto) (evs : list Evento) :
  cargar_datos (Some f) = (Tabla fs, evs) ->
  exists cuerpo,
    filter (fun r => r <> []) f = COLUMNAS :: cuerpo /\
    mapM fila_de_celdas cuerpo = Some fs /\ evs = [].
Proof.
  unfold cargar_datos, read_csv. intros H.
  destruct (filter _ f) as [|cab cuerpo]; [discriminate|].
  destruct (bool_decide (cab = COLUMNAS)) eqn:Ec; [|discriminate].
  apply bool_decide_eq_true_1 in Ec. subst cab.
  destruct (forallb _ cuerpo); [|discriminate].
  destruct (mapM fila_de_celdas cuerpo) as [fs'|] eqn:Em; [|discriminate].
  injection H as <- <-. eauto.
Qed.

Lemma mapM_releidas (cuerpo : list (list string)) (fs : list Producto) :
  mapM fila_de_celdas cuerpo = Some fs ->
  mapM fila_de_celdas (map celdas_de_fila fs) = Some fs.
Proof.
  rewrite !mapM_Some. intros H.
  induction H as [|r p cuerpo fs Hr _ IH]; simpl; constructor; eauto using fila_releida.
Qed.

(** Loading what was saved from a loaded table gives the table back. *)
Lemma cargar_guardado (f : Archivo) (fs : list Producto) (evs : list Evento) :
  cargar_datos (Some f) = (Tabla fs, evs) ->
  cargar_datos (Some (to_csv (Tabla fs))) = (Tabla fs, []).
Proof.
  intros H. destruct (cargado_de_cuerpo _ _ _ H) as (cuerpo & _ & Hm & ->).
  unfold cargar_datos. rewrite read_csv_to_csv.
  by rewrite (mapM_releidas _ _ Hm).
Qed.

End Store.

Example carga_ejemplo : cargar_datos (Some ejemplo_archivo) = (ejemplo_df, []).
Proof. vm_compute. reflexivity. Qed.

Example enteros_ejemplo :
  parse_int "-12" = Some (-12)%Z /\ parse_int "+7" = Some 7%Z /\
  parse_int "007" = Some 7%Z /\ parse_int "" = None /\ parse_int "muchas" = None /\
  print_int (-120) = "-120" /\ print_int 0 = "0".
Proof. vm_compute. repeat split. Qed.

(** ** 64-bit integers *)

Lemma wrap64_id (z : Z) : en_int64 z -> wrap64 z = z.
Proof.
  unfold en_int64, wrap64, MIN_INT64, MAX_INT64. intros Hz.
  rewrite Z.mod_small; lia.
Qed.

Example wrap64_ejemplo :
  wrap64 (MAX_INT64 + 1) = MIN_INT64 /\ wrap64 (MIN_INT64 - 1) = MAX_INT64 /\
  wrap64 40 = 40%Z.
Proof. vm_compute. repeat split. Qed.

(** ** Cells that can only be texts *)

Lemma texto_llano_no_entero (c : string) : texto_llano c = true -> parse_int c = None.
Proof.
  destruct c as [|a s']; [done|]. unfold texto_llano, letras_llanas. intros H.
  apply existsb_exists in H as (x & Hin & Heq). apply Ascii.eqb_eq in Heq. subst x.
  unfold parse_int, NilZero.int_of_string, NilZero.uint_of_string.
  simpl in Hin.
  repeat (destruct Hin as [<-|Hin];
          [simpl; destruct (NilEmpty.uint_of_string s'); reflexivity|]).
  destruct Hin.
Qed.

Lemma texto_llano_no_na (c : string) : texto_llano c = true -> es_na c = false.
Proof.
  intros H. unfold es_na. apply bool_decide_eq_false_2. intros Hin.
  unfold na_values in Hin.
  repeat (apply elem_of_cons in Hin as [->|Hin]; [discriminate H|]).
  by apply elem_of_nil in Hin.
Qed.

Lemma no_entero_no_coerce (c : string) : no_entero c = true -> parse_int c = None.
Proof.
  unfold no_entero. intros [H|H]%orb_true_iff; [|by apply texto_llano_no_entero].
  unfold es_na in H. apply bool_decide_eq_true in H. unfold na_values in H.
  repeat (apply elem_of_cons in H as [->|H]; [vm_compute; reflexivity|]).
  by apply elem_of_nil in H.
Qed.

(** ** Failed saves *)

(** C1, counterexample.  The file holds the two products; a save of the same
    catalog that fails after the header line returns [false] and leaves the
    header alone on disk: both rows are gone. *)
Lemma guardar_datos_pierde_filas :
  guardar_datos ejemplo_df (FalloAlEscribir 1) (Some ejemplo_archivo)
    = (false, Some [COLUMNAS], [st_error (MsgErrorGuardar OSError)])
  /\ Some [COLUMNAS] <> Some ejemplo_archivo.
Proof. split; [vm_compute; reflexivity | discriminate]. Qed.

(** A cut at a line end is a cut with nothing written of the next line. *)
Lemma cortar_lineas (n : nat) (lineas : Archivo) : cortar n 0 0 lineas = take n lineas.
Proof.
  unfold cortar, linea_cortada. destruct (lineas !! n); by rewrite app_nil_r.
Qed.

(** What a cut leaves is a leading part of the lines: the first [n] lines
    as they are and at most one more line, shorter than the line it was cut
    from or as long. *)
Lemma cortar_comienzo (n k j : nat) (lineas : Archivo) :
  take n (cortar n k j lineas) = take n lineas /\
  (length (cortar n k j lineas) <= length lineas)%nat /\
  (forall l, cortar n k j lineas !! n = Some l ->
     exists linea, lineas !! n = Some linea /\ (length l <= length linea)%nat /\
       take k l = take k linea).
Proof.
  unfold cortar.
  destruct (lineas !! n) as [linea|] eqn:En.
  - pose proof (lookup_lt_Some _ _ _ En) as Hn.
    assert (length (take n lineas) = n) as Hlen by (rewrite length_take; lia).
    split; [by apply take_app_length'|]. split.
    + rewrite length_app, Hlen. unfold linea_cortada.
      destruct k, j; simpl; try lia; destruct (linea !! _); simpl; lia.
    + intros l Hl. rewrite lookup_app_r in Hl by lia.
      rewrite Hlen, Nat.sub_diag in Hl. exists linea. split; [done|].
      unfold linea_cortada in Hl.
      destruct (linea !! k) as [c|] eqn:Ek.
      * pose proof (lookup_lt_Some _ _ _ Ek) as Hk.
        assert (l = take k linea ++ [substring 0 j c]) as ->
          by (destruct k, j; simpl in Hl; rewrite ?Ek in Hl; simpl in Hl; simpl; congruence).
        split; [rewrite length_app, length_take; simpl; lia|].
        apply take_app_length'. rewrite length_take; lia.
      * assert (l = take k linea) as ->
          by (destruct k, j; simpl in Hl; rewrite ?Ek in Hl; simpl in Hl; simpl; congruence).
        split; [rewrite length_take; lia|]. by rewrite take_take, Nat.min_id.
  - rewrite app_nil_r. split; [by rewrite take_take, Nat.min_id|].
    split; [rewrite length_take; lia|].
    intros l Hl. apply lookup_lt_Some in Hl. apply lookup_ge_None in En.
    rewrite length_take in Hl. lia.
Qed.

(** C1, as amended.  [guardar_datos] writes into the backing file itself.
    When it fails it renders the error and returns [false]; the file is then
    untouched only if it could not be opened, and otherwise holds a leading
    part of what was being written, whatever it held before: the first
    lines of the new content and at most one more line, cut short. *)
Theorem guardar_datos_fallido (df : DataFrame) (fl : Fallo) (d d' : option Archivo)
    (evs : list Evento) :
  guardar_datos df fl d = (false, d', evs) ->
  evs = [st_error (MsgErrorGuardar OSError)] /\
  ((fl = FalloAlAbrir /\ d' = d) \/
   (exists n k j f',
      d' = Some f' /\ f' = cortar n k j (to_csv df) /\
      take n f' = take n (to_csv df) /\
      (length f' <= S n)%nat /\ (length f' <= length (to_csv df))%nat)).
Proof.
  unfold guardar_datos, guardar_lineas, escribir.
  assert (forall n k j, (length (cortar n k j (to_csv df)) <= S n)%nat) as Hcorto.
  { intros n k j. unfold cortar. rewrite length_app, length_take.
    destruct (to_csv df !! n) as [linea|]; simpl; [|lia].
    unfold linea_cortada. destruct k, j; simpl; try lia; destruct (linea !! _); simpl; lia. }
  destruct fl as [| |n|n k j]; intros [= <- <-]; (split; [done|]).
  - by left.
  - right. exists n, 0%nat, 0%nat, (take n (to_csv df)).
    rewrite cortar_lineas. pose proof (cortar_comienzo n 0 0 (to_csv df)) as (H1 & H2 & _).
    pose proof (Hcorto n 0%nat 0%nat) as H3.
    rewrite cortar_lineas in H1, H2, H3. done.
  - right. exists n, k, j, (cortar n k j (to_csv df)).
    pose proof (cortar_comienzo n k j (to_csv df)) as (H1 & H2 & _). auto.
Qed.

Lemma guardar_datos_fallido_witness :
  [st_error (MsgErrorGuardar OSError)] = [st_error (MsgErrorGuardar OSError)] /\
  ((FalloEnCelda 1 1 2 = FalloAlAbrir /\
    Some [COLUMNAS; ["1"; "Es"]] = Some ejemplo_archivo) \/
   (exists n k j f',
      Some [COLUMNAS; ["1"; "Es"]] = Some f' /\ f' = cortar n k j (to_csv ejemplo_df) /\
      take n f' = take n (to_csv ejemplo_df) /\
      (length f' <= S n)%nat /\ (length f' <= length (to_csv ejemplo_df))%nat)).
Proof.
  apply (guardar_datos_fallido ejemplo_df (FalloEnCelda 1 1 2) (Some ejemplo_archivo)).
  vm_compute. reflexivity.
Defined.

(** A save that fails in the middle of the name of the first product leaves
    the header and the line [1,Es]. *)
Example guardar_datos_corta_celda :
  guardar_datos ejemplo_df (FalloEnCelda 1 1 2) (Some ejemplo_archivo)
  = (false, Some [COLUMNAS; ["1"; "Es"]], [st_error (MsgErrorGuardar OSError)]).
Proof. vm_compute. reflexivity. Qed.

(** ** Cells that do not coerce *)

(** C3, counterexample.  The first row of the file is well formed and the
    second has an unreadable stock: the load reports the error and returns
    the empty DataFrame, the well-formed row is not in it. *)
Lemma cargar_datos_descarta_todo :
  cargar_datos (Some archivo_stock_ilegible)
    = (SinColumnas, [st_error (MsgErrorCarga ValueError)])
  /\ fila_de_celdas ["1"; "Espada"; "Armas"; "100"; "5"; "Hoja de acero"; "Herrero"]
     = head (filas ejemplo_df)
  /\ filas (fst (cargar_datos (Some archivo_stock_ilegible))) = []
  /\ empty (fst (cargar_datos (Some archivo_stock_ilegible))) = true.
Proof. vm_compute. repeat split. Qed.

(** C3, as amended.  In a file with the header of the store and no line
    longer than the header, a cell of the [id], [precio] or [stock] column
    of some line that is missing or that can only be a text does not coerce
    to an integer: [cargar_datos] then raises nothing, renders one error,
    that of the [ValueError] of [astype], and returns the empty DataFrame,
    so that the whole load is discarded, the rows without a fault included,
    and the catalog counts as empty.  (The line has at least two cells: a
    line without any text is a blank line, which [read_csv] skips.) *)
Theorem cargar_datos_celda_no_entera (cuerpo : list (list string)) (r : list string)
    (c : string) :
  Forall (fun r => (length r <= length COLUMNAS)%nat) cuerpo ->
  r ∈ cuerpo -> (2 <= length r)%nat ->
  c ∈ [celda r 0; celda r 3; celda r 4] ->
  no_entero c = true ->
  cargar_datos (Some (COLUMNAS :: cuerpo))
  = (SinColumnas, [st_error (MsgErrorCarga ValueError)]) /\
  empty (fst (cargar_datos (Some (COLUMNAS :: cuerpo)))) = true.
Proof.
  intros Hlen Hr Hdos Hc Hno.
  assert (r <> []) as Hne by (intros ->; simpl in Hdos; lia).
  assert (cargar_datos (Some (COLUMNAS :: cuerpo))
          = (SinColumnas, [st_error (MsgErrorCarga ValueError)])) as H;
    [|by rewrite H].
  pose proof (no_entero_no_coerce c Hno) as Hbad.
  unfold cargar_datos, read_csv.
  rewrite filter_cons. rewrite decide_True by (unfold COLUMNAS; done).
  rewrite bool_decide_eq_true_2 by reflexivity.
  replace (forallb _ _) with true.
  2:{ symmetry. apply forallb_forall. intros x Hx. apply Nat.leb_le.
      apply list_elem_of_In, list_elem_of_filter in Hx as [_ Hx].
      rewrite Forall_forall in Hlen. by apply Hlen. }
  destruct (mapM fila_de_celdas _) as [fs|] eqn:Em; [|done].
  exfalso. apply mapM_Some in Em.
  assert (r ∈ filter (fun r => r <> []) cuerpo) as Hr'
    by by apply list_elem_of_filter.
  destruct (proj1 (list_elem_of_lookup _ _) Hr') as [i Hi].
  destruct (Forall2_lookup_l _ _ _ _ _ Em Hi) as (p & _ & Hp).
  unfold fila_de_celdas in Hp.
  repeat (apply elem_of_cons in Hc as [->|Hc];
          [rewrite ?Hbad in Hp; simpl in Hp;
           repeat (destruct (parse_int _); simpl in Hp; try rewrite ?Hbad in Hp);
           discriminate|]).
  by apply elem_of_nil in Hc.
Qed.

Lemma cargar_datos_celda_no_entera_witness :
  cargar_datos (Some archivo_stock_ilegible)
  = (SinColumnas, [st_error (MsgErrorCarga ValueError)]) /\
  empty (fst (cargar_datos (Some archivo_stock_ilegible))) = true.
Proof.
  apply (cargar_datos_celda_no_entera (tail archivo_stock_ilegible)
           ["2"; "Pocion"; "Pociones"; "50"; "muchas"; "Cura heridas"; "Alquimista"]
           "muchas").
  - repeat constructor.
  - vm_compute. apply list_elem_of_further, list_elem_of_here.
  - simpl. lia.
  - vm_compute. apply list_elem_of_further, list_elem_of_further, list_elem_of_here.
  - reflexivity.
Defined.

(** A missing price discards the load as well. *)
Example cargar_datos_sin_precio :
  cargar_datos (Some archivo_sin_precio)
  = (SinColumnas, [st_error (MsgErrorCarga ValueError)]).
Proof. vm_compute. reflexivity. Qed.

(** ** Round trip *)








(** A file that is written the way [to_csv] writes comes back cell for
    cell. *)
Example guardar_cargar_ejemplo :
  to_csv (fst (cargar_datos (Some ejemplo_archivo))) = ejemplo_archivo.
Proof. vm_compute. reflexivity. Qed.

(** A file with no data row loads as a table without rows and is written
    back as its header. *)
Example guardar_cargar_sin_filas :
  archivo_canonico [COLUMNAS] = true /\
  cargar_datos (Some [COLUMNAS]) = (Tabla [], []) /\ to_csv (Tabla []) = [COLUMNAS].
Proof. vm_compute. repeat split. Qed.

(** ** Extremes of a column *)

Section Escaneo.

(** [idxmax] and [idxmin] are the same scan under two orders; [peso]
    turns both into "larger is better". *)
Variable peso : Z -> Z.
Variable mejor : Z -> Z -> bool.
Hypothesis mejor_peso : forall y b, mejor y b = (peso b <? peso y)%Z.

Lemma idx_scan_optimo (l pre : list Z) (bi : nat) (bv : Z) :
  optimo_hasta peso pre bi bv ->
  exists v, optimo_hasta peso (pre ++ l) (idx_scan mejor l (length pre) bi bv) v.
Proof.
  revert pre bi bv. induction l as [|y l IH]; intros pre bi bv (Hb & Hmax & Hfirst).
  - rewrite app_nil_r. by exists bv.
  - simpl. rewrite mejor_peso.
    replace (pre ++ y :: l) with ((pre ++ [y]) ++ l) by by rewrite <- app_assoc.
    replace (S (length pre)) with (length (pre ++ [y]))
      by (rewrite length_app; simpl; lia).
    destruct (peso bv <? peso y)%Z eqn:E.
    + apply Z.ltb_lt in E. apply IH. repeat split.
      * by rewrite lookup_app_r, Nat.sub_diag.
      * intros x [Hx|Hx]%elem_of_app.
        -- specialize (Hmax x Hx). lia.
        -- apply list_elem_of_singleton in Hx. subst. lia.
      * intros j x Hj Hx. rewrite lookup_app_l in Hx by done.
        assert (x ∈ pre) as Hin by (apply list_elem_of_lookup; eauto).
        specialize (Hmax x Hin). lia.
    + apply Z.ltb_ge in E. apply IH. repeat split.
      * rewrite lookup_app_l; [done|]. by apply lookup_lt_Some in Hb.
      * intros x [Hx|Hx]%elem_of_app.
        -- by apply Hmax.
        -- apply list_elem_of_singleton in Hx. by subst.
      * intros j x Hj Hx. apply (Hfirst j x Hj).
        apply lookup_lt_Some in Hb.
        rewrite lookup_app_l in Hx by lia. done.
Qed.

Lemma idx_scan_primero (x : Z) (l : list Z) :
  exists v, optimo_hasta peso (x :: l) (idx_scan mejor l 1 0 x) v.
Proof.
  apply (idx_scan_optimo l [x] 0 x). repeat split.
  - intros y Hy. apply list_elem_of_singleton in Hy. by subst.
  - intros j y Hj. lia.
Qed.

End Escaneo.

(** C8.  On a catalog with at least one product the most expensive and the
    cheapest product are each one row of the catalog; the price of that row
    is extremal, and every row before it has a strictly less extremal price:
    among equal prices the first row in catalog order is returned. *)
Theorem extremos_primera_aparicion (fs : list Producto) :
  fs <> [] ->
  (exists i c, mas_caro fs = Some c /\ fs !! i = Some c /\
     (forall p, p ∈ fs -> (precio p <= precio c)%Z) /\
     (forall j q, (j < i)%nat -> fs !! j = Some q -> (precio q < precio c)%Z)) /\
  (exists i b, mas_barato fs = Some b /\ fs !! i = Some b /\
     (forall p, p ∈ fs -> (precio b <= precio p)%Z) /\
     (forall j q, (j < i)%nat -> fs !! j = Some q -> (precio b < precio q)%Z)).
Proof.
  intros Hne. destruct fs as [|p0 fs]; [done|].
  unfold mas_caro, mas_barato, idxmax, idxmin. simpl map. split.
  - destruct (idx_scan_primero (fun z => z) (fun y b => (b <? y)%Z)
                (fun _ _ => eq_refl) (precio p0) (map precio fs))
      as (v & Hv & Hmax & Hfirst).
    set (i := idx_scan _ _ _ _ _) in *.
    change (precio p0 :: map precio fs) with (map precio (p0 :: fs)) in *.
    rewrite list_lookup_fmap in Hv.
    destruct ((p0 :: fs) !! i) as [c|] eqn:Hc; [|done].
    injection Hv as <-. exists i, c. simpl. rewrite Hc. repeat split.
    + intros p Hp. apply Hmax. by apply list_elem_of_fmap_2.
    + intros j q Hj Hq. apply (Hfirst j); [done|].
      by rewrite list_lookup_fmap, Hq.
  - destruct (idx_scan_primero Z.opp (fun y b => (y <? b)%Z)) with
      (x := precio p0) (l := map precio fs) as (v & Hv & Hmin & Hfirst).
    { intros y b. destruct (Z.ltb_spec y b), (Z.ltb_spec (- b) (- y)); lia. }
    set (i := idx_scan _ _ _ _ _) in *.
    change (precio p0 :: map precio fs) with (map precio (p0 :: fs)) in *.
    rewrite list_lookup_fmap in Hv.
    destruct ((p0 :: fs) !! i) as [c|] eqn:Hc; [|done].
    injection Hv as <-. exists i, c. simpl. rewrite Hc. repeat split.
    + intros p Hp. assert (- precio p <= - precio c)%Z; [|lia].
      apply Hmin. by apply list_elem_of_fmap_2.
    + intros j q Hj Hq. assert (- precio q < - precio c)%Z; [|lia].
      apply (Hfirst j); [done|]. by rewrite list_lookup_fmap, Hq.
Qed.

Lemma extremos_primera_aparicion_witness :
  (exists i c, mas_caro catalogo_empates = Some c /\ catalogo_empates !! i = Some c /\
     (forall p, p ∈ catalogo_empates -> (precio p <= precio c)%Z) /\
     (forall j q, (j < i)%nat -> catalogo_empates !! j = Some q ->
        (precio q < precio c)%Z)) /\
  (exists i b, mas_barato catalogo_empates = Some b /\ catalogo_empates !! i = Some b /\
     (forall p, p ∈ catalogo_empates -> (precio b <= precio p)%Z) /\
     (forall j q, (j < i)%nat -> catalogo_empates !! j = Some q ->
        (precio b < precio q)%Z)).
Proof.
  apply (extremos_primera_aparicion catalogo_empates). vm_compute. discriminate.
Defined.

Example extremos_con_empates :
  id <$> mas_caro catalogo_empates = Some 2%Z /\
  id <$> mas_barato catalogo_empates = Some 1%Z.
Proof. vm_compute. split; reflexivity. Qed.

(** ** Query engine *)


Section ConsultasProps.

Variable str_contains : string -> string -> bool.


(** Nothing passes the filters of an empty catalog. *)
Lemma aplicar_filtros_nil (f : Filtros) : aplicar_filtros str_contains [] f = [].
Proof.
  unfold aplicar_filtros.
  repeat case_bool_decide; destruct (stock_filter f); reflexivity.
Qed.

End ConsultasProps.


(** The exceptions of the side bar: a catalog of one product, or of
    products that all cost the same, stops at the slider; a catalog with a
    product without a category next to one with a category stops at the
    first select box. *)
Example construir_filtros_ejemplos :
  construir_filtros (filas ejemplo_df) = None /\
  construir_filtros [] = Some ValueError /\
  construir_filtros [espada] = Some StreamlitAPIException /\
  construir_filtros [espada; mkProducto 2 (Some "Yelmo") (Some "Armas") MAX_INT64 1
                               (Some "De acero") (Some "Herrero")]
  = Some StreamlitAPIException /\
  construir_filtros catalogo_sin_categoria = Some TypeError.
Proof. vm_compute. repeat split. Qed.

(** ** Stock updates *)

Lemma asignar_stock_no_negativo (producto_id n : Z) (fs : list Producto) :
  (0 <= n)%Z -> stock_no_negativo fs -> stock_no_negativo (asignar_stock producto_id n fs).
Proof.
  intros Hn Hfs. unfold stock_no_negativo, asignar_stock in *.
  apply Forall_fmap. eapply Forall_impl; [exact Hfs|].
  intros p Hp. simpl. by case_bool_decide.
Qed.

Lemma producto_por_id_elem (producto_id : Z) (fs : list Producto) (p : Producto) :
  producto_por_id producto_id fs = Some p -> p ∈ fs /\ id p = producto_id.
Proof.
  unfold producto_por_id. intros H.
  assert (p ∈ filter (fun q => id q = producto_id) fs) as Hin.
  { destruct (filter _ fs); [done|]. injection H as ->. apply list_elem_of_here. }
  by apply list_elem_of_filter in Hin as [? ?].
Qed.

Lemma guardar_datos_hecho (df : DataFrame) (fl : Fallo) (d d' : option Archivo)
    (evs : list Evento) :
  guardar_datos df fl d = (true, d', evs) ->
  fl = SinFallo /\ d' = Some (to_csv df) /\ evs = [].
Proof.
  unfold guardar_datos, guardar_lineas, escribir.
  destruct fl; intros [= <- <-]; done.
Qed.

(** C2, counterexample.  The stock of the only product of the file is the
    largest 64-bit integer, a non-negative stock, and a reception of one
    unit is submitted for it: the sum wraps around, the update succeeds with
    the low-stock warning, and the stock written to the file and loaded by
    the next run is the lowest 64-bit integer, a negative number. *)
Lemma recepcion_desborda :
  let r := main (fun _ _ => false) mundo_stock_al_limite
             (GestionarInventario
                {| envio := EnviaActualizar (Recepcion 1);
                   producto_seleccionado := Some (Some "Espada") |}) SinFallo in
  catalogo_cargado mundo_stock_al_limite = Tabla [espada_al_limite] /\
  (0 <= stock espada_al_limite)%Z /\
  final r = Reiniciado /\
  eventos r
  = [st_info (MsgInformacion 9223372036854775807 100 (Some "Armas"));
     st_success (MsgAgregaron 1 (-9223372036854775808));
     st_warning MsgStockBajo] /\
  disco (mundo r)
  = Some [COLUMNAS;
          ["1"; "Espada"; "Armas"; "100"; "-9223372036854775808"; "Hoja de acero";
           "Herrero"]] /\
  map stock (filas (catalogo_cargado (mundo r))) = [(-9223372036854775808)%Z].
Proof. vm_compute. repeat split. discriminate. Qed.

(** C2, as amended.  On a catalog whose stocks are non-negative 64-bit
    integers, an update of the stock of a product of the catalog, by a
    reception of a positive amount that does not take the stock beyond the
    largest 64-bit integer, a sale of a positive amount or the setting of a
    non-negative stock, leaves every stock of the catalog non-negative, in
    memory and in what it writes to the file.  A sale of more than the
    current stock renders the insufficient-stock error and changes nothing:
    the catalog in memory, the file and the memo are what they were before
    the call. *)
Theorem actualizar_stock_no_negativo (fs : list Producto) (producto_id : Z)
    (producto : Producto) (op : Operacion) (fl : Fallo) (w : Mundo) :
  producto_por_id producto_id fs = Some producto ->
  stock_no_negativo fs ->
  Forall (fun p => en_int64 (stock p)) fs ->
  operacion_valida op ->
  (forall cantidad, op = Recepcion cantidad ->
     (stock producto + cantidad <= MAX_INT64)%Z) ->
  let g := form_actualizar fs producto_id producto op fl w in
  stock_no_negativo (filas (g_df g)) /\
  (g_fin g = Reinicia -> disco (g_mundo g) = Some (to_csv (g_df g))) /\
  (forall cantidad, op = Venta cantidad -> (stock producto < cantidad)%Z ->
     g_eventos g = [st_error (MsgStockInsuficiente (stock producto))] /\
     g_df g = Tabla fs /\ g_mundo g = w /\ g_fin g = Continua).
Proof.
  intros Hp Hfs H64 Hop Hsum g.
  destruct (producto_por_id_elem _ _ _ Hp) as [Hin _].
  assert (0 <= stock producto)%Z as H0
    by (unfold stock_no_negativo in Hfs; rewrite Forall_forall in Hfs; by apply Hfs).
  assert (stock producto <= MAX_INT64)%Z as Hmax
    by (rewrite Forall_forall in H64; by apply H64).
  assert (MIN_INT64 < 0)%Z as Hmin by done.
  subst g. unfold form_actualizar, calcular_stock.
  destruct op as [c|c|n]; simpl in Hop.
  - specialize (Hsum c eq_refl).
    rewrite wrap64_id by (unfold en_int64; lia).
    destruct (guardar_datos _ fl (disco w)) as [[[] d'] evs'] eqn:Eg; simpl.
    + pose proof (guardar_datos_hecho _ _ _ _ _ Eg) as (_ & -> & ->).
      split; [apply asignar_stock_no_negativo; [lia|done]|]. split; done.
    + split; [apply asignar_stock_no_negativo; [lia|done]|]. split; done.
  - destruct (stock producto <? c)%Z eqn:E.
    + simpl. split; [done|]. split; [done|]. by intros c' [= <-] _.
    + apply Z.ltb_ge in E.
      rewrite wrap64_id by (unfold en_int64; lia).
      destruct (guardar_datos _ fl (disco w)) as [[[] d'] evs'] eqn:Eg; simpl.
      * pose proof (guardar_datos_hecho _ _ _ _ _ Eg) as (_ & -> & ->).
        split; [apply asignar_stock_no_negativo; [lia|done]|].
        split; [done|]. intros c' [= <-] Hlt. lia.
      * split; [apply asignar_stock_no_negativo; [lia|done]|].
        split; [done|]. intros c' [= <-] Hlt. lia.
  - destruct (guardar_datos _ fl (disco w)) as [[[] d'] evs'] eqn:Eg; simpl.
    + pose proof (guardar_datos_hecho _ _ _ _ _ Eg) as (_ & -> & ->).
      split; [apply asignar_stock_no_negativo; [lia|done]|]. split; done.
    + split; [apply asignar_stock_no_negativo; [lia|done]|]. split; done.
Qed.

Lemma actualizar_stock_no_negativo_witness :
  let g := form_actualizar (filas ejemplo_df) 2 pocion (Recepcion 10) SinFallo
             mundo_ejemplo in
  stock_no_negativo (filas (g_df g)) /\
  (g_fin g = Reinicia -> disco (g_mundo g) = Some (to_csv (g_df g))) /\
  (forall cantidad, Recepcion 10 = Venta cantidad -> (stock pocion < cantidad)%Z ->
     g_eventos g = [st_error (MsgStockInsuficiente (stock pocion))] /\
     g_df g = Tabla (filas ejemplo_df) /\ g_mundo g = mundo_ejemplo /\ g_fin g = Continua).
Proof.
  apply (actualizar_stock_no_negativo (filas ejemplo_df) 2 pocion (Recepcion 10) SinFallo
           mundo_ejemplo).
  - vm_compute. reflexivity.
  - unfold stock_no_negativo. simpl. repeat constructor; simpl; lia.
  - simpl. repeat constructor; unfold en_int64, MIN_INT64, MAX_INT64; simpl; lia.
  - simpl. unfold MAX_NUMBER_INPUT. lia.
  - intros cantidad [= <-]. unfold MAX_INT64. simpl. lia.
Defined.

(** The refused sale of the specification satisfies the same hypotheses. *)
Example venta_rechazada :
  let g := form_actualizar (filas ejemplo_df) 1 espada (Venta 10) SinFallo mundo_ejemplo in
  g_eventos g = [st_error (MsgStockInsuficiente 5)] /\
  g_df g = ejemplo_df /\ g_mundo g = mundo_ejemplo /\ g_fin g = Continua.
Proof. vm_compute. repeat split. Qed.

(** The two scenarios of the specification: a sale of 10 of product 1, which
    has 5, is refused and changes nothing; a reception of 10 for product 2
    gives 40, written to the file, without the low-stock warning. *)
Example venta_sin_stock :
  pagina_gestionar ejemplo_df
    {| envio := EnviaActualizar (Venta 10); producto_seleccionado := Some (Some "Espada") |}
    SinFallo mundo_ejemplo
  = {| g_df := ejemplo_df; g_mundo := mundo_ejemplo;
       g_eventos := [st_info (MsgInformacion 5 100 (Some "Armas"));
                     st_error (MsgStockInsuficiente 5)];
       g_fin := Continua |}.
Proof. vm_compute. reflexivity. Qed.

Example recepcion_de_diez :
  let g := pagina_gestionar ejemplo_df
             {| envio := EnviaActualizar (Recepcion 10);
                producto_seleccionado := Some (Some "Pocion") |}
             SinFallo mundo_ejemplo in
  stock <$> producto_por_id 2 (filas (g_df g)) = Some 40%Z /\
  g_eventos g = [st_info (MsgInformacion 30 50 (Some "Pociones"));
                 st_success (MsgAgregaron 10 40)] /\
  g_fin g = Reinicia /\
  (disco (g_mundo g) ≫= fun f => f !! 2%nat)
    = Some ["2"; "Pocion"; "Pociones"; "50"; "40"; "Cura heridas"; "Alquimista"].
Proof. vm_compute. repeat split. Qed.

(** ** Aggregation by category *)

Lemma suma_perm (l k : list Z) : l ≡ₚ k -> suma l = suma k.
Proof.
  unfold suma. induction 1 as [|x l k _ IH|x y l|l k m _ IH1 _ IH2]; simpl; lia.
Qed.

Lemma suma_ceros {A} (ks : list A) : suma (map (fun _ => 0%Z) ks) = 0%Z.
Proof. induction ks as [|k ks IH]; [done|]. unfold suma in *. simpl. by rewrite IH. Qed.

Lemma suma_map_mas {A} (f g : A -> Z) (ks : list A) :
  suma (map (fun k => (f k + g k)%Z) ks) = (suma (map f ks) + suma (map g ks))%Z.
Proof.
  induction ks as [|k ks IH]; [done|]. unfold suma in *. simpl. rewrite IH. lia.
Qed.

(** Over keys without repetition a value counted under its own key only is
    counted once if the key is there, and not at all otherwise. *)
Lemma suma_indicador (ks : list string) (k0 : string) (v : Z) :
  NoDup ks ->
  suma (map (fun k => if decide (Some k0 = Some k) then v else 0%Z) ks)
  = if decide (k0 ∈ ks) then v else 0%Z.
Proof.
  induction 1 as [|k ks Hk _ IH]; [done|].
  change (suma (map ?f (k :: ks))) with (f k + suma (map f ks))%Z.
  rewrite IH. clear IH.
  destruct (decide (Some k0 = Some k)) as [[= ->]|Hne].
  - rewrite (decide_True (P := k ∈ k :: ks)) by apply list_elem_of_here.
    rewrite (decide_False (P := k ∈ ks)) by done. lia.
  - destruct (decide (k0 ∈ ks)) as [Hin|Hnin].
    + rewrite (decide_True (P := k0 ∈ k :: ks)) by by apply list_elem_of_further. lia.
    + rewrite (decide_False (P := k0 ∈ k :: ks)); [lia|].
      intros [->|?]%elem_of_cons; [by apply Hne|done].
Qed.

Lemma suma_por_claves (ks : list string) (fs : list Producto) :
  NoDup ks ->
  (forall p k, p ∈ fs -> categoria p = Some k -> k ∈ ks) ->
  suma (map (stock_de_grupo fs) ks) = suma (map stock (con_categoria fs)).
Proof.
  intros Hnd. induction fs as [|p fs IH]; intros Hks.
  - unfold stock_de_grupo. simpl. apply suma_ceros.
  - assert (suma (map (stock_de_grupo (p :: fs)) ks)
            = suma (map (fun k => ((match categoria p with
                                     | Some k0 => if decide (Some k0 = Some k)
                                                  then stock p else 0
                                     | None => 0
                                     end) + stock_de_grupo fs k)%Z) ks)) as ->.
    { f_equal. apply map_ext. intros k. unfold stock_de_grupo.
      rewrite filter_cons. destruct (categoria p) as [k0|] eqn:Ec;
        repeat case_decide; simplify_eq; simpl; try done; lia. }
    rewrite suma_map_mas. rewrite IH.
    2:{ intros q k Hq. apply Hks. by apply list_elem_of_further. }
    unfold con_categoria. rewrite filter_cons.
    destruct (categoria p) as [k0|] eqn:Ec.
    + rewrite suma_indicador by done.
      rewrite decide_True by (eapply Hks; [apply list_elem_of_here|done]).
      rewrite decide_True by by eexists. done.
    + rewrite suma_ceros. rewrite decide_False by by intros [? ?]. done.
Qed.

Lemma stock_total_analisis (fs : list Producto) :
  map stock_total (analisis_categoria fs)
  = map (stock_de_grupo fs) (claves (map categoria fs)).
Proof.
  unfold analisis_categoria, groupby. rewrite !map_map. by apply map_ext.
Qed.

(** What the category table adds up to: the stock of the products that have
    a category. *)
Lemma suma_grupos_con_categoria (fs : list Producto) :
  suma (map stock_total (analisis_categoria fs)) = suma (map stock (con_categoria fs)).
Proof.
  rewrite stock_total_analisis.
  set (ks := remove_dups (omap (fun t => t) (map categoria fs))).
  rewrite (suma_perm _ (map (stock_de_grupo fs) ks)).
  2:{ apply Permutation_map. unfold claves. apply merge_sort_Permutation. }
  apply suma_por_claves; [apply NoDup_remove_dups|].
  intros p k Hp Hk. apply elem_of_remove_dups.
  apply list_elem_of_omap. exists (Some k). split; [|done].
  rewrite <- Hk. by apply list_elem_of_fmap_2.
Qed.

(** C6, counterexample.  The second row of the file has an empty category
    cell, which loads as a missing value; [groupby] drops the row, and the
    category table adds up to 5 while the catalog holds 12. *)
Lemma grupos_omiten_sin_categoria :
  cargar_datos (Some archivo_sin_categoria) = (Tabla catalogo_sin_categoria, []) /\
  suma (map stock_total (analisis_categoria catalogo_sin_categoria)) = 5%Z /\
  suma (map stock catalogo_sin_categoria) = 12%Z.
Proof. vm_compute. repeat split. Qed.

(** C6, as amended.  For every catalog in which every product has a
    category, the stock totals of the category groups add up to the stock of
    the whole catalog. *)
Theorem suma_grupos_es_stock (fs : list Producto) :
  Forall (fun p => is_Some (categoria p)) fs ->
  suma (map stock_total (analisis_categoria fs)) = suma (map stock fs).
Proof.
  intros Hall. rewrite suma_grupos_con_categoria. do 2 f_equal.
  unfold con_categoria. induction Hall as [|p fs Hp _ IH]; [done|].
  rewrite filter_cons, decide_True by done. by rewrite IH.
Qed.

Lemma suma_grupos_es_stock_witness :
  suma (map stock_total (analisis_categoria catalogo_empates))
  = suma (map stock catalogo_empates).
Proof.
  apply (suma_grupos_es_stock catalogo_empates).
  repeat constructor; simpl; eexists; reflexivity.
Defined.

Example grupos_de_ejemplo :
  map (fun g => (clave g, cantidad_productos g, stock_total g, valor_total g))
      (analisis_categoria (filas ejemplo_df))
  = [("Armas", 1%nat, 5%Z, 500%Z); ("Pociones", 1%nat, 30%Z, 1500%Z)].
Proof. vm_compute. reflexivity. Qed.

(** ** Selecting the product to update *)

Lemma zip_nombre_id (fs : list Producto) :
  zip (map nombre fs) (map id fs) = map (fun p => (nombre p, id p)) fs.
Proof. induction fs as [|p fs IH]; [done|]. simpl. by rewrite IH. Qed.

Lemma productos_dict_snoc (fs : list Producto) (p : Producto) :
  productos_dict (fs ++ [p]) = <[nombre p := id p]> (productos_dict fs).
Proof.
  unfold productos_dict. rewrite !zip_nombre_id, map_app, foldl_app. reflexivity.
Qed.

(** The dictionary maps a name to the id of the last row that carries it. *)
Lemma productos_dict_ultimo (fs : list Producto) (n : texto) :
  n ∈ map nombre fs ->
  exists i p, fs !! i = Some p /\ nombre p = n /\
    (forall j q, (i < j)%nat -> fs !! j = Some q -> nombre q <> n) /\
    productos_dict fs !! n = Some (id p).
Proof.
  induction fs as [|p fs IH] using rev_ind; intros Hn.
  - by apply elem_of_nil in Hn.
  - rewrite productos_dict_snoc.
    destruct (decide (nombre p = n)) as [Heq|Hne].
    + exists (length fs), p. repeat split.
      * by rewrite lookup_app_r, Nat.sub_diag.
      * done.
      * intros j q Hj Hq. apply lookup_lt_Some in Hq.
        rewrite length_app in Hq. simpl in Hq. lia.
      * subst n. apply lookup_insert_eq.
    + rewrite map_app in Hn. apply elem_of_app in Hn as [Hn|Hn].
      2:{ apply list_elem_of_singleton in Hn. by subst. }
      destruct (IH Hn) as (i & q & Hi & Hq & Hlast & Hd).
      exists i, q. repeat split.
      * rewrite lookup_app_l; [done|]. by apply lookup_lt_Some in Hi.
      * done.
      * intros j r Hj Hr.
        destruct (decide (j < length fs)%nat) as [Hlt|Hge].
        -- rewrite lookup_app_l in Hr by done. by apply (Hlast j).
        -- rewrite lookup_app_r in Hr by lia.
           destruct (j - length fs)%nat; [|done]. by injection Hr as <-.
      * by rewrite lookup_insert_ne.
Qed.

(** With unique ids, a row is the only one with its id. *)
Lemma producto_por_id_unico (fs : list Producto) (i : nat) (p : Producto) :
  NoDup (map id fs) -> fs !! i = Some p -> producto_por_id (id p) fs = Some p.
Proof.
  unfold producto_por_id. revert i.
  induction fs as [|q fs IH]; intros i Hnd Hi; [done|].
  simpl in Hnd. apply NoDup_cons in Hnd as [Hq Hnd].
  rewrite filter_cons. destruct i as [|i]; simpl in Hi.
  - injection Hi as ->. by rewrite decide_True.
  - rewrite decide_False; [by apply (IH i)|].
    intros Heq. apply Hq. rewrite Heq.
    apply list_elem_of_fmap_2. apply list_elem_of_lookup. eauto.
Qed.

Lemma asignar_stock_otra_fila (fs : list Producto) (i j : nat) (p q : Producto) (n : Z) :
  NoDup (map id fs) -> fs !! i = Some p -> fs !! j = Some q -> j <> i ->
  asignar_stock (id p) n fs !! j = Some q.
Proof.
  intros Hnd Hi Hj Hne. unfold asignar_stock.
  rewrite list_lookup_fmap, Hj. simpl.
  rewrite bool_decide_eq_false_2; [done|].
  intros Heq. apply Hne.
  apply (NoDup_lookup (map id fs) j i (id p)); [done| |].
  - by rewrite list_lookup_fmap, Hj, <- Heq.
  - by rewrite list_lookup_fmap, Hi.
Qed.

(** C10.  For every name carried by a product of the catalog, the
    name-to-id dictionary of the update tab maps the name to the id of the
    last row with that name.  With unique ids the update submitted for that
    name is therefore the update of that last row: it is the row that is
    read and written, and every other row, the earlier rows of the same name
    among them, keeps its stock. *)
Theorem productos_dict_ultima_fila (fs : list Producto) (s : string) :
  Some s ∈ map nombre fs ->
  exists i p,
    fs !! i = Some p /\ nombre p = Some s /\
    (forall j q, (i < j)%nat -> fs !! j = Some q -> nombre q <> Some s) /\
    productos_dict fs !! Some s = Some (id p) /\
    (NoDup (map id fs) ->
       (forall j q n, j <> i -> fs !! j = Some q ->
          asignar_stock (id p) n fs !! j = Some q) /\
       (s <> "" -> forall op fl w,
          tab_actualizar fs
            {| envio := EnviaActualizar op; producto_seleccionado := Some (Some s) |} fl w
          = tras_eventos
              [st_info (MsgInformacion (stock p) (precio p) (categoria p))]
              (form_actualizar fs (id p) p op fl w))).
Proof.
  intros Hs. destruct (productos_dict_ultimo fs (Some s) Hs) as (i & p & Hi & Hn & Hlast & Hd).
  exists i, p. repeat split; try done.
  - intros j q n Hne Hj. by apply (asignar_stock_otra_fila fs i j p q n).
  - intros Hs' op fl w. unfold tab_actualizar. simpl.
    rewrite bool_decide_eq_false_2 by done. simpl.
    rewrite Hd. by rewrite (producto_por_id_unico fs i p).
Qed.

Lemma productos_dict_ultima_fila_witness :
  exists i p,
    catalogo_homonimos !! i = Some p /\ nombre p = Some "Espada" /\
    (forall j q, (i < j)%nat -> catalogo_homonimos !! j = Some q ->
       nombre q <> Some "Espada") /\
    productos_dict catalogo_homonimos !! Some "Espada" = Some (id p) /\
    (NoDup (map id catalogo_homonimos) ->
       (forall j q n, j <> i -> catalogo_homonimos !! j = Some q ->
          asignar_stock (id p) n catalogo_homonimos !! j = Some q) /\
       ("Espada" <> "" -> forall op fl w,
          tab_actualizar catalogo_homonimos
            {| envio := EnviaActualizar op;
               producto_seleccionado := Some (Some "Espada") |} fl w
          = tras_eventos
              [st_info (MsgInformacion (stock p) (precio p) (categoria p))]
              (form_actualizar catalogo_homonimos (id p) p op fl w))).
Proof.
  apply (productos_dict_ultima_fila catalogo_homonimos "Espada").
  vm_compute. apply list_elem_of_here.
Defined.

(** Two products are called Espada: the name resolves to id 3, and a
    reception of 2 changes the third row only. *)
Example homonimos_ultimo :
  productos_dict catalogo_homonimos !! Some "Espada" = Some 3%Z /\
  map stock (filas (g_df (tab_actualizar catalogo_homonimos
     {| envio := EnviaActualizar (Recepcion 2);
        producto_seleccionado := Some (Some "Espada") |} SinFallo mundo_ejemplo)))
  = [5; 30; 10]%Z.
Proof. vm_compute. split; reflexivity. Qed.

(** ** Adding products *)

Lemma fila_de_celdas_escritas (p : Producto) :
  fila_de_celdas (celdas_de_fila p) = Some (releer p).
Proof.
  unfold fila_de_celdas, celdas_de_fila, celda. simpl.
  rewrite !Store.parse_print. reflexivity.
Qed.

Lemma cargar_to_csv (l : list Producto) :
  cargar_datos (Some (to_csv (Tabla l))) = (Tabla (map releer l), []).
Proof.
  unfold cargar_datos. rewrite Store.read_csv_to_csv.
  replace (mapM fila_de_celdas (map celdas_de_fila l)) with (Some (map releer l)); [done|].
  symmetry. apply mapM_Some. induction l as [|p l IH]; simpl; constructor;
    [apply fila_de_celdas_escritas | exact IH].
Qed.

Lemma id_releer (l : list Producto) : map id (map releer l) = map id l.
Proof. rewrite map_map. by apply map_ext. Qed.

Lemma foldl_max_cota (x : Z) (l : list Z) :
  (x <= foldl Z.max x l)%Z /\ forall y, y ∈ l -> (y <= foldl Z.max x l)%Z.
Proof.
  revert x. induction l as [|z l IH]; intros x; simpl.
  - split; [lia|]. intros y Hy. by apply elem_of_nil in Hy.
  - destruct (IH (Z.max x z)) as [H1 H2]. split; [lia|].
    intros y [->|Hy]%elem_of_cons; [lia|by apply H2].
Qed.

Lemma maximo_cota (l : list Z) (m : Z) :
  maximo l = Some m -> forall y, y ∈ l -> (y <= m)%Z.
Proof.
  destruct l as [|x l]; [done|]. intros [= <-] y Hy.
  destruct (foldl_max_cota x l) as [H1 H2].
  apply elem_of_cons in Hy as [->|Hy]; [done|by apply H2].
Qed.

Lemma maximo_snoc (l : list Z) (m : Z) :
  maximo l = Some m -> maximo (l ++ [(m + 1)%Z]) = Some (m + 1)%Z.
Proof.
  destruct l as [|x l]; [done|]. intros [= <-]. simpl.
  rewrite foldl_app. simpl. f_equal. lia.
Qed.

Lemma NoDup_snoc_mayor (l : list Z) (m : Z) :
  maximo l = Some m -> NoDup l -> NoDup (l ++ [(m + 1)%Z]).
Proof.
  intros Hm Hnd. apply NoDup_app. repeat split; [done| |apply NoDup_singleton].
  intros y Hy Hy'. apply list_elem_of_singleton in Hy'.
  pose proof (maximo_cota l m Hm y Hy). lia.
Qed.

Lemma maximo_elem (l : list Z) (m : Z) : maximo l = Some m -> m ∈ l.
Proof.
  destruct l as [|x l]; [done|]. intros [= <-]. revert x.
  induction l as [|y l IH]; intros x; simpl; [apply list_elem_of_here|].
  specialize (IH (Z.max x y)). apply elem_of_cons in IH as [->|IH].
  - destruct (Z.max_spec x y) as [[_ ->]|[_ ->]];
      [apply list_elem_of_further|]; apply list_elem_of_here.
  - by do 2 apply list_elem_of_further.
Qed.

Section Altas.

Variable str_contains : string -> string -> bool.

(** Without a submitted update form the second tab changes nothing and
    never ends in a rerun. *)
Lemma tab_actualizar_sin_envio (fs : list Producto) (f : FormAgregar)
    (sel : option texto) (fl : Fallo) (w : Mundo) :
  g_fin (tab_actualizar fs {| envio := EnviaAgregar f; producto_seleccionado := sel |}
           fl w) <> Reinicia.
Proof.
  unfold tab_actualizar. simpl.
  destruct (verdadero sel); [|done].
  destruct (sel ≫= _); [|done].
  destruct (producto_por_id _ fs); done.
Qed.

(** A call is successful only when the form has a name and a description
    and the write does not fail; on a catalog with highest id [m] it then
    reports the 64-bit sum [m + 1], and leaves the catalog with the new row
    on disk and an empty memo. *)
Lemma add_product_paso (w w1 : Mundo) (c : FormAgregar * option texto * Fallo)
    (i : Z) (fs : list Producto) (m : Z) :
  catalogo_cargado w = Tabla fs ->
  maximo (map id fs) = Some m ->
  add_product str_contains w c = Some (i, w1) ->
  f_nombre c.1.1 <> "" /\ f_descripcion c.1.1 <> "" /\ c.2 = SinFallo /\
  i = wrap64 (m + 1) /\
  w1 = {| disco := Some (to_csv (Tabla (fs ++ [nuevo_producto (wrap64 (m + 1)) c.1.1])));
          cache := None |}.
Proof.
  destruct c as [[f sel] fl]. unfold catalogo_cargado, add_product, main.
  destruct (cargar_datos_memo w) as [[df evs] w0]. simpl. intros -> Hm.
  destruct fs as [|p fs]; [done|]. simpl empty. cbv iota.
  unfold despachar, pagina_gestionar. simpl envio. unfold form_agregar.
  destruct (bool_decide (f_nombre f = "") || bool_decide (f_descripcion f = "")) eqn:Ev.
  - simpl.
    pose proof (tab_actualizar_sin_envio (p :: fs) f sel fl w0) as Hf.
    destruct (g_fin (tab_actualizar _ _ _ _)); done.
  - apply orb_false_iff in Ev as [Hn Hd]. apply bool_decide_eq_false in Hn, Hd.
    rewrite Hm. simpl fmap. cbv beta iota.
    destruct fl as [| |n|n k j].
    + simpl. rewrite last_snoc. intros [= <- <-]. done.
    + simpl.
      pose proof (tab_actualizar_sin_envio (p :: fs) f sel FalloAlAbrir
                    {| disco := disco w0; cache := cache w0 |}) as Hf.
      destruct (g_fin (tab_actualizar _ _ _ _)); done.
    + simpl.
      match goal with
      | |- context [tab_actualizar ?a ?b ?c ?d] =>
          pose proof (tab_actualizar_sin_envio a f sel c d) as Hf;
          destruct (g_fin (tab_actualizar a b c d)); done
      end.
    + simpl.
      match goal with
      | |- context [tab_actualizar ?a ?b ?c ?d] =>
          pose proof (tab_actualizar_sin_envio a f sel c d) as Hf;
          destruct (g_fin (tab_actualizar a b c d)); done
      end.
Qed.

(** A form with a name and a description whose write does not fail is a
    successful call. *)
Lemma add_product_exito (w : Mundo) (f : FormAgregar) (sel : option texto)
    (fs : list Producto) (m : Z) :
  catalogo_cargado w = Tabla fs ->
  maximo (map id fs) = Some m ->
  en_int64 (m + 1) ->
  f_nombre f <> "" -> f_descripcion f <> "" ->
  add_product str_contains w (f, sel, SinFallo)
  = Some ((m + 1)%Z,
          {| disco := Some (to_csv (Tabla (fs ++ [nuevo_producto (m + 1) f])));
             cache := None |}).
Proof.
  unfold catalogo_cargado, add_product, main.
  destruct (cargar_datos_memo w) as [[df evs] w0]. simpl. intros -> Hm H64 Hn Hd.
  destruct fs as [|p fs]; [done|]. simpl empty. cbv iota.
  unfold despachar, pagina_gestionar. simpl envio. unfold form_agregar.
  rewrite !bool_decide_eq_false_2 by done. simpl orb. cbv iota.
  rewrite Hm. simpl fmap. rewrite (wrap64_id _ H64). simpl.
  by rewrite last_snoc.
Qed.

End Altas.

Lemma ids_desde_S (m : Z) (n : nat) :
  ids_desde m (S n) = (m + 1)%Z :: ids_desde (m + 1) n.
Proof.
  unfold ids_desde. simpl. f_equal.
  rewrite <- seq_shift, map_map. apply map_ext. intros k. lia.
Qed.

Lemma catalogo_cargado_guardado (l : list Producto) :
  catalogo_cargado {| disco := Some (to_csv (Tabla l)); cache := None |}
  = Tabla (map releer l).
Proof.
  unfold catalogo_cargado, cargar_datos_memo.
  change (cache {| disco := _; cache := None |}) with (@None (DataFrame * list Evento)).
  change (disco {| disco := Some (to_csv (Tabla l)); cache := None |})
    with (Some (to_csv (Tabla l))).
  cbv iota. by rewrite cargar_to_csv.
Qed.

Lemma enteros_int64_releer (l : list Producto) :
  enteros_int64 l -> enteros_int64 (map releer l).
Proof. unfold enteros_int64. intros H. apply Forall_fmap. exact H. Qed.

(** C5, counterexample.  The two products of the file carry the lowest and
    the highest 64-bit integer as their ids, which are distinct.  The add
    form is submitted once and succeeds: [max + 1] wraps around, the id
    reported is the lowest 64-bit integer and not the highest plus one, and
    in the catalog then loaded two products carry it. *)
Lemma add_products_desborda :
  exists fs w' fs',
    catalogo_cargado mundo_ids_extremos = Tabla fs /\
    NoDup (map id fs) /\
    maximo (map id fs) = Some 9223372036854775807%Z /\
    add_products (fun _ _ => false) mundo_ids_extremos [(form_escudo, None, SinFallo)]
    = Some ([(-9223372036854775808)%Z], w') /\
    ids_desde 9223372036854775807 1 = [9223372036854775808%Z] /\
    catalogo_cargado w' = Tabla fs' /\
    map id fs'
    = [(-9223372036854775808)%Z; 9223372036854775807%Z; (-9223372036854775808)%Z] /\
    ~ NoDup (map id fs').
Proof.
  do 3 eexists.
  split; [vm_compute; reflexivity|].
  split.
  { simpl. repeat constructor; rewrite ?elem_of_cons, ?elem_of_nil; intuition lia. }
  split; [vm_compute; reflexivity|].
  split; [vm_compute; reflexivity|].
  split; [vm_compute; reflexivity|].
  split; [vm_compute; reflexivity|].
  split; [reflexivity|].
  simpl. intros H. apply NoDup_cons in H as [H _]. apply H.
  apply list_elem_of_further, list_elem_of_here.
Qed.

Section AltasConsecutivas.

Variable str_contains : string -> string -> bool.

(** C5, as amended.  On a loaded catalog whose integers fit in 64 bits, with
    unique ids, highest id [m] and [c] products, [n] consecutive submissions
    of an add form that passes the validation, none of whose writes fails,
    are [n] successful [add_product] calls as long as [m + n] does not
    exceed the largest 64-bit integer: the ids the calls report are
    [m+1, m+2, ..., m+n] in the order of the calls, and the catalog then
    loaded has [c + n] products, whose integers fit in 64 bits and whose
    ids are the original ones followed by the new ones, all pairwise
    distinct. *)
Theorem add_products_ids (cs : list (FormAgregar * option texto * Fallo))
    (w : Mundo) (fs : list Producto) (m : Z) :
  catalogo_cargado w = Tabla fs ->
  enteros_int64 fs ->
  NoDup (map id fs) ->
  maximo (map id fs) = Some m ->
  (m + Z.of_nat (length cs) <= MAX_INT64)%Z ->
  Forall (fun c => formulario_valido c.1.1 /\ c.2 = SinFallo) cs ->
  exists w' fs',
    add_products str_contains w cs = Some (ids_desde m (length cs), w') /\
    catalogo_cargado w' = Tabla fs' /\
    enteros_int64 fs' /\
    length fs' = (length fs + length cs)%nat /\
    map id fs' = map id fs ++ ids_desde m (length cs) /\
    NoDup (map id fs').
Proof.
  revert w fs m. induction cs as [|c cs IH]; intros w fs m Hw H64 Hnd Hm Hmax Hcs.
  - exists w, fs. rewrite app_nil_r, Nat.add_0_r. done.
  - apply Forall_cons in Hcs as [[Hv Hfl] Hcs].
    destruct c as [[f sel] fl]. simpl in Hv, Hfl. subst fl.
    destruct Hv as (Hn & Hd & Hprecio & Hstock).
    assert (en_int64 m) as Hm64.
    { unfold enteros_int64 in H64. rewrite Forall_forall in H64.
      apply maximo_elem, list_elem_of_fmap in Hm as (q & -> & Hq).
      by apply H64. }
    simpl length in Hmax. rewrite Nat2Z.inj_succ in Hmax.
    assert (en_int64 (m + 1)) as Hm1 by (unfold en_int64 in *; lia).
    pose proof (add_product_exito str_contains w f sel fs m Hw Hm Hm1 Hn Hd) as E1.
    set (p := nuevo_producto (m + 1) f) in *.
    pose proof (catalogo_cargado_guardado (fs ++ [p])) as Hw1.
    assert (map id (map releer (fs ++ [p])) = map id fs ++ [(m + 1)%Z]) as Hids
      by by rewrite id_releer, map_app.
    destruct (IH _ (map releer (fs ++ [p])) (m + 1)%Z Hw1)
      as (w' & fs' & Hadd & Hw' & H64' & Hlen & Hmap & Hnd').
    + apply enteros_int64_releer. unfold enteros_int64. apply Forall_app. split; [done|].
      apply Forall_singleton. subst p. simpl.
      unfold en_int64, MIN_INT64, MAX_INT64, MAX_NUMBER_INPUT in *. lia.
    + rewrite Hids. by apply NoDup_snoc_mayor.
    + rewrite Hids. by apply maximo_snoc.
    + lia.
    + done.
    + exists w', fs'. cbn [add_products length]. rewrite E1. cbn [mbind option_bind].
      rewrite Hadd. cbn [mbind option_bind].
      rewrite ids_desde_S. repeat split; try done.
      * rewrite Hlen, length_map, length_app. simpl. lia.
      * by rewrite Hmap, Hids, <- app_assoc.
Qed.

End AltasConsecutivas.

Lemma add_products_ids_witness :
  exists w' fs',
    add_products (fun _ _ => false) mundo_ejemplo
      [(form_escudo, None, SinFallo); (form_arco, Some (Some "Espada"), SinFallo)]
    = Some (ids_desde 2 2, w') /\
    catalogo_cargado w' = Tabla fs' /\
    enteros_int64 fs' /\
    length fs' = (length (filas ejemplo_df) + 2)%nat /\
    map id fs' = map id (filas ejemplo_df) ++ ids_desde 2 2 /\
    NoDup (map id fs').
Proof.
  apply (add_products_ids (fun _ _ => false)
           [(form_escudo, None, SinFallo); (form_arco, Some (Some "Espada"), SinFallo)]
           mundo_ejemplo (filas ejemplo_df) 2).
  - vm_compute. reflexivity.
  - unfold enteros_int64, en_int64, MIN_INT64, MAX_INT64. simpl.
    repeat constructor; simpl; lia.
  - simpl. repeat constructor; rewrite ?elem_of_cons, ?elem_of_nil; intuition lia.
  - vm_compute. reflexivity.
  - unfold MAX_INT64. simpl. lia.
  - unfold formulario_valido, MAX_NUMBER_INPUT.
    repeat constructor; simpl; (discriminate || lia).
Defined.

(** The two forms submitted one after the other are given the ids 3 and 4
    and leave the four products on disk. *)
Example add_products_ejemplo :
  add_products (fun _ _ => false) mundo_ejemplo
    [(form_escudo, None, SinFallo); (form_arco, Some (Some "Espada"), SinFallo)]
  = Some ([3; 4]%Z, mundo_tras_altas).
Proof. vm_compute. reflexivity. Qed.

(** ** The entry point *)

Section EntradaProps.

Variable str_contains : string -> string -> bool.

Lemma despachar_no_aborta (df : DataFrame) (nav : Navegacion) (fl : Fallo) (w : Mundo) :
  final (despachar str_contains df nav fl w) <> Abortado.
Proof.
  destruct nav as [|f| |e]; simpl.
  - by destruct (pagina_inicio df).
  - by destruct (pagina_productos str_contains df f).
  - by destruct (pagina_estadisticas df).
  - by destruct (g_fin (pagina_gestionar df e fl w)).
Qed.

(** C9.  When no memo is held, a missing backing file and a backing file
    with the header and no row both load as an empty DataFrame.  Whenever
    the loaded DataFrame is empty, [main] renders its error and returns
    without running any page: its outcome does not depend on the page
    chosen or on what was submitted, and the file is not touched.  A run
    that does reach a page runs it on a catalog with at least one row, on
    which the highest id that [add_product] starts from exists. *)
Theorem main_solo_con_catalogo (w : Mundo) (nav : Navegacion) (fl : Fallo) :
  (cache w = None -> disco w = None \/ disco w = Some [COLUMNAS] ->
     empty (catalogo_cargado w) = true) /\
  (empty (catalogo_cargado w) = true ->
     main str_contains w nav fl
     = {| mundo := snd (cargar_datos_memo w);
          eventos := snd (fst (cargar_datos_memo w)) ++ [st_error MsgSinDatos];
          final := Abortado |}
     /\ disco (mundo (main str_contains w nav fl)) = disco w) /\
  (empty (catalogo_cargado w) = false ->
     final (main str_contains w nav fl) <> Abortado) /\
  (final (main str_contains w nav fl) <> Abortado ->
     exists p fs,
       catalogo_cargado w = Tabla (p :: fs) /\
       final (main str_contains w nav fl)
       = final (despachar str_contains (Tabla (p :: fs)) nav fl
                  (snd (cargar_datos_memo w))) /\
       is_Some (maximo (map id (p :: fs)))).
Proof.
  unfold catalogo_cargado, main.
  split; [|split; [|split]].
  - intros Hc Hd. unfold cargar_datos_memo. rewrite Hc.
    destruct Hd as [-> | ->]; reflexivity.
  - intros He.
    assert (disco (cargar_datos_memo w).2 = disco w) as Hdisk.
    { unfold cargar_datos_memo. destruct (cache w) as [[df0 evs0]|]; [done|].
      by destruct (cargar_datos (disco w)). }
    destruct (cargar_datos_memo w) as [[df evs] w1]. simpl in *.
    rewrite He. done.
  - destruct (cargar_datos_memo w) as [[df evs] w1]. simpl.
    intros ->. simpl. apply despachar_no_aborta.
  - destruct (cargar_datos_memo w) as [[df evs] w1]. simpl.
    destruct df as [|[|p fs]]; simpl; try done.
    intros _. exists p, fs. repeat split. by eexists.
Qed.

End EntradaProps.

Lemma main_solo_con_catalogo_witness :
  (empty (catalogo_cargado mundo_sin_archivo) = true /\
   final (main (fun _ _ => false) mundo_sin_archivo alta_escudo SinFallo) = Abortado) /\
  (empty (catalogo_cargado mundo_sin_filas) = true /\
   main (fun _ _ => false) mundo_sin_filas alta_escudo SinFallo
   = {| mundo := {| disco := Some [COLUMNAS]; cache := Some (Tabla [], []) |};
        eventos := [st_error MsgSinDatos];
        final := Abortado |}) /\
  (exists p fs,
     catalogo_cargado mundo_ejemplo = Tabla (p :: fs) /\
     final (main (fun _ _ => false) mundo_ejemplo alta_escudo SinFallo)
     = final (despachar (fun _ _ => false) (Tabla (p :: fs)) alta_escudo SinFallo
                (snd (cargar_datos_memo mundo_ejemplo))) /\
     is_Some (maximo (map id (p :: fs)))).
Proof.
  split; [|split].
  - destruct (main_solo_con_catalogo (fun _ _ => false) mundo_sin_archivo alta_escudo
                SinFallo) as (H1 & H2 & _ & _).
    assert (empty (catalogo_cargado mundo_sin_archivo) = true) as He
      by (apply H1; [reflexivity | left; reflexivity]).
    split; [exact He|]. destruct (H2 He) as [-> _]. reflexivity.
  - destruct (main_solo_con_catalogo (fun _ _ => false) mundo_sin_filas alta_escudo
                SinFallo) as (H1 & H2 & _ & _).
    assert (empty (catalogo_cargado mundo_sin_filas) = true) as He
      by (apply H1; [reflexivity | right; reflexivity]).
    split; [exact He|]. destruct (H2 He) as [-> _]. reflexivity.
  - destruct (main_solo_con_catalogo (fun _ _ => false) mundo_ejemplo alta_escudo
                SinFallo) as (_ & _ & H3 & H4).
    apply H4, H3. reflexivity.
Defined.

(** The failed load of a missing file and the load of a file without rows
    end the run the same way; only the message of the load differs. *)
Example main_sin_archivo :
  main (fun _ _ => false) mundo_sin_archivo alta_escudo SinFallo
  = {| mundo := {| disco := None;
                   cache := Some (SinColumnas, [st_error MsgNoEncontrado]) |};
       eventos := [st_error MsgNoEncontrado; st_error MsgSinDatos];
       final := Abortado |}.
Proof. vm_compute. reflexivity. Qed.

(** The validation scenario of the specification: an empty name is refused
    and nothing is written. *)
Example alta_sin_nombre :
  let g := pagina_gestionar ejemplo_df
             {| envio := EnviaAgregar
                  {| f_nombre := ""; f_categoria := Some "Armas"; f_precio := 1;
                     f_stock := 0; f_proveedor := Some "Herrero";
                     f_descripcion := "x" |};
                producto_seleccionado := Some (Some "Espada") |}
             SinFallo mundo_ejemplo in
  g_df g = ejemplo_df /\ g_mundo g = mundo_ejemplo /\
  g_eventos g = [st_error MsgObligatorios; st_info (MsgInformacion 5 100 (Some "Armas"))].
Proof. vm_compute. repeat split. Qed.

(** The low-stock scenario of the specification: with the threshold 20 the
    filter keeps product 1 only, with stock 5 and value 500. *)
Example filtro_stock_bajo :
  pagina_productos (fun _ _ => true) ejemplo_df
    {| categoria_seleccionada := "Todas"; proveedor_seleccionado := "Todos";
       precio_min := 50; precio_max := 100; stock_filter := StockBajo; busqueda := "" |}
  = inr (ConResultados 1 [(espada, true)] 5 500 (Some (100 # 1)%Q)).
Proof. vm_compute. reflexivity. Qed.


(** * Further properties of the code *)

(** ** Path of the backing file *)

Lemma buscar_ruta_primera (existe : string -> bool) (rutas : list string) (r : string) :
  buscar_ruta existe rutas = Some r ->
  exists antes despues,
    rutas = antes ++ r :: despues /\ existe r = true /\
    Forall (fun q => existe q = false) antes.
Proof.
  induction rutas as [|q rutas IH]; [done|]. simpl.
  destruct (existe q) eqn:E.
  - intros [= ->]. by exists [], rutas.
  - intros H. destruct (IH H) as (antes & despues & -> & Hr & Hantes).
    exists (q :: antes), despues. repeat split; [done|]. by constructor.
Qed.

Lemma buscar_ruta_ninguna (existe : string -> bool) (rutas : list string) :
  buscar_ruta existe rutas = None -> Forall (fun q => existe q = false) rutas.
Proof.
  induction rutas as [|q rutas IH]; [by constructor|]. simpl.
  destruct (existe q) eqn:E; [done|]. intros H. constructor; auto.
Qed.

(** X1.  [obtener_ruta_csv] always returns one of the three candidate paths.
    If the returned path exists, no candidate listed before it does; if it
    does not exist, no candidate exists at all and the path is the default
    one, the first of the list. *)
Theorem obtener_ruta_csv_primera (existe : string -> bool) :
  exists antes despues,
    rutas_posibles = antes ++ obtener_ruta_csv existe :: despues /\
    Forall (fun q => existe q = false) antes /\
    (existe (obtener_ruta_csv existe) = false ->
       antes = [] /\ Forall (fun q => existe q = false) rutas_posibles).
Proof.
  unfold obtener_ruta_csv.
  destruct (buscar_ruta existe rutas_posibles) as [r|] eqn:E.
  - destruct (buscar_ruta_primera _ _ _ E) as (antes & despues & Hr & He & Hantes).
    exists antes, despues. repeat split; try done; congruence.
  - exists [], (tail rutas_posibles). repeat split; try done.
    by apply buscar_ruta_ninguna.
Qed.

(** ** The filters of the product page *)

Section FiltrosProps.

Variable str_contains : string -> string -> bool.

Lemma filtro_opcional {A} (b : bool) (P : A -> Prop) `{forall x, Decision (P x)}
    (l : list A) :
  (if b then filter P l else l) = filter (fun x => b = false \/ P x) l.
Proof.
  destruct b.
  - apply list_filter_iff. intros x. split; [by right|]. by intros [?|?].
  - induction l as [|x l IH]; [done|].
    rewrite filter_cons, decide_True by by left. by rewrite <- IH.
Qed.

(** The five filters applied one after the other keep exactly the rows that
    satisfy all of them. *)
Lemma aplicar_filtros_cumple (fs : list Producto) (f : Filtros) :
  aplicar_filtros str_contains fs f = filter (fun p => cumple str_contains f p = true) fs.
Proof.
  destruct f as [cat prov lo hi est bus].
  unfold aplicar_filtros, cumple. cbv zeta. simpl.
  rewrite (filtro_opcional (bool_decide (bus <> ""))).
  destruct est;
    rewrite (filtro_opcional (bool_decide (prov <> "Todos")));
    rewrite (filtro_opcional (bool_decide (cat <> "Todas")));
    rewrite !list_filter_filter;
    apply list_filter_iff; intros p;
    rewrite !andb_true_iff, !orb_true_iff, !bool_decide_eq_true, !bool_decide_eq_false;
    destruct (decide (bus = "")), (decide (prov = "Todos")), (decide (cat = "Todas"));
    tauto.
Qed.

(** X2.  A product is in the result of the filters exactly when it is in
    the catalog and satisfies all five of them, and the result keeps the
    order of the catalog: it is the catalog with some rows left out. *)
Theorem aplicar_filtros_conjuncion (fs : list Producto) (f : Filtros) :
  (forall p, p ∈ aplicar_filtros str_contains fs f <->
             p ∈ fs /\ cumple str_contains f p = true) /\
  aplicar_filtros str_contains fs f `sublist_of` fs.
Proof.
  rewrite aplicar_filtros_cumple. split.
  - intros p. rewrite list_elem_of_filter. tauto.
  - apply sublist_filter.
Qed.

(** X3.  Filtering twice with the same filters gives what filtering once
    gives. *)
Theorem aplicar_filtros_idempotente (fs : list Producto) (f : Filtros) :
  aplicar_filtros str_contains (aplicar_filtros str_contains fs f) f
  = aplicar_filtros str_contains fs f.
Proof.
  rewrite !aplicar_filtros_cumple, list_filter_filter.
  apply list_filter_iff. tauto.
Qed.

Lemma cumple_estado (f : Filtros) (p : Producto) :
  cumple str_contains (con_estado f StockBajo) p
  = cumple str_contains (con_estado f StockTodos) p
    && bool_decide (stock p <= UMBRAL_STOCK_BAJO)%Z /\
  cumple str_contains (con_estado f StockSaludable) p
  = cumple str_contains (con_estado f StockTodos) p
    && bool_decide (UMBRAL_STOCK_BAJO < stock p)%Z.
Proof.
  unfold cumple. simpl. split.
  - rewrite andb_true_r, <- !andb_assoc. do 4 f_equal. apply andb_comm.
  - rewrite andb_true_r, <- !andb_assoc. do 4 f_equal. apply andb_comm.
Qed.

(** X4.  Whatever the other filters are, the low-stock results and the
    healthy-stock results split the results obtained without a stock filter:
    no product is in both, their counts add up and so do their stocks. *)
Theorem aplicar_filtros_particion_stock (fs : list Producto) (f : Filtros) :
  let todos := aplicar_filtros str_contains fs (con_estado f StockTodos) in
  let bajos := aplicar_filtros str_contains fs (con_estado f StockBajo) in
  let sanos := aplicar_filtros str_contains fs (con_estado f StockSaludable) in
  (forall p, p ∈ bajos -> p ∉ sanos) /\
  length todos = (length bajos + length sanos)%nat /\
  suma (map stock todos) = (suma (map stock bajos) + suma (map stock sanos))%Z.
Proof.
  cbv zeta. rewrite !aplicar_filtros_cumple. split; [|split].
  - intros p [Hb _]%list_elem_of_filter [Hs _]%list_elem_of_filter.
    destruct (cumple_estado f p) as [H1 H2]. rewrite H1 in Hb. rewrite H2 in Hs.
    rewrite andb_true_iff, bool_decide_eq_true in Hb, Hs. lia.
  - induction fs as [|p fs IH]; [done|]. rewrite !filter_cons.
    destruct (cumple_estado f p) as [-> ->].
    destruct (cumple str_contains (con_estado f StockTodos) p);
      repeat case_bool_decide; simpl; rewrite ?IH; lia.
  - induction fs as [|p fs IH]; [done|]. rewrite !filter_cons.
    destruct (cumple_estado f p) as [-> ->]. unfold suma in *.
    destruct (cumple str_contains (con_estado f StockTodos) p);
      repeat case_bool_decide; simpl; rewrite ?IH; lia.
Qed.

(** X5.  With no category, no supplier, no stock state and no name chosen,
    and a price range that covers every price of the catalog, the filters
    return the whole catalog. *)
Theorem aplicar_filtros_todo (fs : list Producto) (f : Filtros) :
  categoria_seleccionada f = "Todas" ->
  proveedor_seleccionado f = "Todos" ->
  stock_filter f = StockTodos ->
  busqueda f = "" ->
  Forall (fun p => (precio_min f <= precio p <= precio_max f)%Z) fs ->
  aplicar_filtros str_contains fs f = fs.
Proof.
  intros Hc Hp He Hb Hr. rewrite aplicar_filtros_cumple.
  induction Hr as [|p fs Hp' _ IH]; [done|].
  rewrite filter_cons, decide_True; [by rewrite IH|].
  unfold cumple. rewrite Hc, Hp, He, Hb. simpl.
  rewrite !bool_decide_eq_true_2 by lia. done.
Qed.

(** X6.  When the page shows its metrics, the widgets of the side bar were
    built, the number of results is positive and is the number of rows of
    the table; the table holds the filtered rows in their order, each with
    a price within the range of the filters and flagged as low exactly when
    its stock is at most 20; and the mean price shown is a number. *)
Theorem mostrar_resultados_tabla (fs : list Producto) (f : Filtros) (n : nat)
    (t : list (Producto * bool)) (s v : Z) (m : option Q) :
  pagina_productos str_contains (Tabla fs) f = inr (ConResultados n t s v m) ->
  construir_filtros fs = None /\
  (0 < n)%nat /\ length t = n /\
  map fst t = aplicar_filtros str_contains fs f /\
  (forall p b, (p, b) ∈ t ->
     (precio_min f <= precio p <= precio_max f)%Z /\
     (b = true <-> (stock p <= UMBRAL_STOCK_BAJO)%Z)) /\
  is_Some m.
Proof.
  unfold pagina_productos, mostrar_resultados.
  destruct (construir_filtros fs) as [e|]; [done|].
  assert (forall p, p ∈ aplicar_filtros str_contains fs f ->
                    cumple str_contains f p = true) as Hin.
  { intros p. rewrite aplicar_filtros_cumple, list_elem_of_filter. tauto. }
  set (g := fun p : Producto => (p, bool_decide (stock p <= UMBRAL_STOCK_BAJO)%Z)).
  destruct (aplicar_filtros str_contains fs f) as [|p0 l] eqn:E; [done|].
  assert (map fst (map g (p0 :: l)) = p0 :: l) as Ht1.
  { rewrite map_map. apply map_id. }
  assert (forall p b, (p, b) ∈ map g (p0 :: l) ->
            (precio_min f <= precio p <= precio_max f)%Z /\
            (b = true <-> (stock p <= UMBRAL_STOCK_BAJO)%Z)) as Ht2.
  { intros p b (q & [= -> ->] & Hq)%list_elem_of_fmap. split.
    - apply Hin in Hq. unfold cumple in Hq.
      rewrite !andb_true_iff, !bool_decide_eq_true in Hq. lia.
    - apply bool_decide_eq_true. }
  assert (length (map g (p0 :: l)) = length (p0 :: l)) as Ht3 by apply length_map.
  intros H. change ((0 <? length (p0 :: l))%nat) with true in H. cbv iota in H.
  injection H as <- <- <- <- <-.
  split; [done|]. split; [simpl; lia|]. split; [exact Ht3|].
  split; [exact Ht1|]. split; [exact Ht2|by eexists].
Qed.

End FiltrosProps.

Lemma mostrar_resultados_tabla_witness :
  construir_filtros catalogo_empates = None /\
  (0 < 4)%nat /\
  length (map (fun p => (p, bool_decide (stock p <= 20)%Z)) catalogo_empates) = 4%nat /\
  map fst (map (fun p => (p, bool_decide (stock p <= 20)%Z)) catalogo_empates)
  = aplicar_filtros (fun _ _ => false) catalogo_empates filtro_todo /\
  (forall p b, (p, b) ∈ map (fun p => (p, bool_decide (stock p <= 20)%Z)) catalogo_empates ->
     (precio_min filtro_todo <= precio p <= precio_max filtro_todo)%Z /\
     (b = true <-> (stock p <= UMBRAL_STOCK_BAJO)%Z)) /\
  is_Some (Some (200 # 4)%Q).
Proof.
  apply (mostrar_resultados_tabla (fun _ _ => false) catalogo_empates filtro_todo 4
           _ 18 660 (Some (200 # 4)%Q)).
  vm_compute. reflexivity.
Defined.

Lemma aplicar_filtros_todo_witness :
  aplicar_filtros (fun _ _ => false) catalogo_empates filtro_todo = catalogo_empates.
Proof.
  apply (aplicar_filtros_todo (fun _ _ => false) catalogo_empates filtro_todo);
    try reflexivity.
  repeat constructor; simpl; lia.
Defined.

(** ** Loading and saving *)

(** X7.  [cargar_datos] never returns data together with an error: either
    it returns a table and renders nothing, or it returns the empty
    DataFrame and renders exactly one error, which is the file-not-found
    message exactly when the file is absent. *)
Theorem cargar_datos_tabla_o_error (f : option Archivo) :
  (exists fs, cargar_datos f = (Tabla fs, [])) \/
  (exists m, cargar_datos f = (SinColumnas, [st_error m]) /\
             (m = MsgNoEncontrado <-> f = None)).
Proof.
  unfold cargar_datos, read_csv. destruct f as [lineas|].
  - destruct (filter _ lineas) as [|cab cuerpo].
    { right. eexists. split; [done|]. split; done. }
    destruct (bool_decide (cab = COLUMNAS)).
    2:{ right. eexists. split; [done|]. split; done. }
    destruct (forallb _ cuerpo).
    2:{ right. eexists. split; [done|]. split; done. }
    destruct (mapM fila_de_celdas cuerpo) as [fs|].
    + left. by exists fs.
    + right. eexists. split; [done|]. split; done.
  - right. exists MsgNoEncontrado. done.
Qed.




Lemma valor_de_texto_releido (t : texto) :
  valor_de_texto t = true -> leer_texto (escribir_texto t) = t.
Proof.
  destruct t as [s|]; simpl; [|done]. intros H.
  unfold leer_texto. by rewrite (texto_llano_no_na s H).
Qed.

Lemma textos_llanos_releer (l : list Producto) : textos_llanos l -> map releer l = l.
Proof.
  unfold textos_llanos. induction 1 as [|p l (Hn & Hc & Hd & Hp) _ IH]; [done|].
  simpl. rewrite IH. f_equal. unfold releer.
  rewrite !valor_de_texto_releido by done. by destruct p.
Qed.

(** X9.  Saving a catalog that pandas holds as the model does (its integers
    fit in 64 bits and every value of its text columns is missing or can
    only be a text) and loading the file again gives the same catalog: the
    same rows in the same order with the same integers, texts and missing
    values. *)
Theorem guardar_y_cargar (l : list Producto) (d : option Archivo) :
  catalogo_fiel l ->
  exists f,
    guardar_datos (Tabla l) SinFallo d = (true, Some f, []) /\
    head f = Some COLUMNAS /\ length f = S (length l) /\
    cargar_datos (Some f) = (Tabla l, []).
Proof.
  intros [_ Ht]. exists (to_csv (Tabla l)).
  split; [done|]. split; [done|]. split; [simpl; by rewrite length_map|].
  by rewrite cargar_to_csv, textos_llanos_releer.
Qed.

Lemma guardar_y_cargar_witness :
  exists f,
    guardar_datos ejemplo_df SinFallo None = (true, Some f, []) /\
    head f = Some COLUMNAS /\ length f = S (length (filas ejemplo_df)) /\
    cargar_datos (Some f) = (ejemplo_df, []).
Proof.
  apply (guardar_y_cargar (filas ejemplo_df) None).
  unfold catalogo_fiel, enteros_int64, textos_llanos, en_int64, MIN_INT64, MAX_INT64.
  simpl. split; repeat constructor; simpl; lia.
Defined.

(** A product called NA is outside of these catalogs: its name comes back
    missing. *)
Example producto_llamado_NA :
  nombre <$> head (filas (fst (cargar_datos (Some (to_csv (Tabla
     [mkProducto 7 (Some "NA") (Some "Armas") 1 1 (Some "x") (Some "y")]))))))
  = Some None.
Proof. vm_compute. reflexivity. Qed.

(** ** Group tables *)

Lemma str_le_total : Total str_le.
Proof. intros a b. unfold str_le. apply String.leb_total. Qed.

Lemma claves_permutacion (col : list texto) :
  claves col ≡ₚ remove_dups (omap (fun t => t) col).
Proof. unfold claves. apply merge_sort_Permutation. Qed.

Lemma claves_elem (col : list texto) (k : string) : k ∈ claves col <-> Some k ∈ col.
Proof.
  rewrite claves_permutacion, elem_of_remove_dups, list_elem_of_omap. split.
  - by intros (t & Ht & ->).
  - intros H. by exists (Some k).
Qed.

Lemma claves_NoDup (col : list texto) : NoDup (claves col).
Proof. rewrite claves_permutacion. apply NoDup_remove_dups. Qed.

Section Grupos.

Variable col : Producto -> texto.
Variable medida : Producto -> Z.

Lemma suma_medida_por_claves (ks : list string) (fs : list Producto) :
  NoDup ks ->
  (forall p k, p ∈ fs -> col p = Some k -> k ∈ ks) ->
  suma (map (fun k => suma (map medida (filter (fun p => col p = Some k) fs))) ks)
  = suma (map medida (con_valor col fs)).
Proof.
  intros Hnd. induction fs as [|p fs IH]; intros Hks.
  - simpl. apply suma_ceros.
  - assert (suma (map (fun k => suma (map medida
                                   (filter (fun p => col p = Some k) (p :: fs)))) ks)
            = suma (map (fun k => ((match col p with
                                     | Some k0 => if decide (Some k0 = Some k)
                                                  then medida p else 0
                                     | None => 0
                                     end)
                                   + suma (map medida
                                        (filter (fun p => col p = Some k) fs)))%Z) ks))
      as ->.
    { f_equal. apply map_ext. intros k.
      rewrite filter_cons. destruct (col p) as [k0|] eqn:Ec;
        repeat case_decide; simplify_eq; simpl; try done; lia. }
    rewrite suma_map_mas. rewrite IH.
    2:{ intros q k Hq. apply Hks. by apply list_elem_of_further. }
    unfold con_valor. rewrite filter_cons.
    destruct (col p) as [k0|] eqn:Ec.
    + rewrite suma_indicador by done.
      rewrite decide_True by (eapply Hks; [apply list_elem_of_here|done]).
      rewrite decide_True by by eexists. done.
    + rewrite suma_ceros. rewrite decide_False by by intros [? ?]. done.
Qed.

(** Over the groups of a column, a measure adds up to its sum over the rows
    that have a value in the column. *)
Lemma suma_medida_grupos (fs : list Producto) :
  suma (map (fun kg => suma (map medida (snd kg))) (groupby col fs))
  = suma (map medida (con_valor col fs)).
Proof.
  unfold groupby. rewrite map_map. simpl.
  rewrite (suma_perm _ (map (fun k => suma (map medida
                                (filter (fun p => col p = Some k) fs)))
                          (remove_dups (omap (fun t => t) (map col fs))))).
  2:{ apply Permutation_map, claves_permutacion. }
  apply suma_medida_por_claves; [apply NoDup_remove_dups|].
  intros p k Hp Hk. apply elem_of_remove_dups, list_elem_of_omap.
  exists (Some k). split; [|done]. rewrite <- Hk. by apply list_elem_of_fmap_2.
Qed.

(** Every group of [groupby] has a key some row carries, and holds that
    row. *)
Lemma groupby_no_vacio (fs : list Producto) (k : string) (g : list Producto) :
  (k, g) ∈ groupby col fs ->
  g = filter (fun p => col p = Some k) fs /\ exists p, p ∈ g /\ p ∈ fs /\ col p = Some k.
Proof.
  unfold groupby. intros (k' & [= <- ->] & Hk)%list_elem_of_fmap.
  split; [done|]. apply claves_elem in Hk.
  apply list_elem_of_fmap in Hk as (p & Hp & Hin).
  exists p. split; [|done]. by apply list_elem_of_filter.
Qed.

End Grupos.

Lemma suma_unos {A} (l : list A) : suma (map (fun _ => 1%Z) l) = Z.of_nat (length l).
Proof.
  unfold suma. induction l as [|x l IH]; [done|]. simpl map. simpl foldr.
  rewrite IH. simpl length. lia.
Qed.

Lemma nunique_cota (colu : list texto) : (nunique colu <= length colu)%nat.
Proof.
  unfold nunique.
  transitivity (length (omap (fun t => t) colu)).
  - apply submseteq_length, NoDup_submseteq; [apply NoDup_remove_dups|].
    intros x. by rewrite elem_of_remove_dups.
  - induction colu as [|[t|] colu IH]; simpl;
      [done | by apply le_n_S | by apply le_S].
Qed.

(** X10.  In the category table the product counts of the groups add up to
    the number of products that have a category, and their total values add
    up to the total value of those products. *)
Theorem analisis_categoria_totales (fs : list Producto) :
  suma (map (fun g => Z.of_nat (cantidad_productos g)) (analisis_categoria fs))
  = Z.of_nat (length (con_valor categoria fs)) /\
  suma (map valor_total (analisis_categoria fs))
  = suma (map valor (con_valor categoria fs)).
Proof.
  unfold analisis_categoria. rewrite !map_map. split.
  - rewrite <- suma_unos, <- (suma_medida_grupos categoria (fun _ => 1%Z)).
    f_equal. apply map_ext. intros [k g]. simpl. by rewrite suma_unos, length_map.
  - rewrite <- (suma_medida_grupos categoria valor).
    f_equal. apply map_ext. by intros [k g].
Qed.

(** X11.  The category table has one row per distinct category of the
    catalog, in sorted order without repetition, as many as the metric of
    unique categories counts.  No group is empty: each counts at least one
    product and has a mean price. *)
Theorem analisis_categoria_grupos (fs : list Producto) :
  NoDup (map clave (analisis_categoria fs)) /\
  Sorted str_le (map clave (analisis_categoria fs)) /\
  length (analisis_categoria fs) = nunique (map categoria fs) /\
  (forall k, k ∈ map clave (analisis_categoria fs) <->
             exists p, p ∈ fs /\ categoria p = Some k) /\
  (forall g, g ∈ analisis_categoria fs ->
     (1 <= cantidad_productos g)%nat /\ is_Some (precio_promedio g)).
Proof.
  assert (map clave (analisis_categoria fs) = claves (map categoria fs)) as Hk.
  { unfold analisis_categoria, groupby. rewrite !map_map.
    rewrite <- (map_id (claves _)) at 2. by apply map_ext. }
  rewrite Hk. split; [apply claves_NoDup|].
  split; [pose proof str_le_total; by apply Sorted_merge_sort|].
  split.
  { rewrite <- (length_map clave), Hk. unfold nunique.
    apply Permutation_length, claves_permutacion. }
  split.
  { intros k. rewrite claves_elem, list_elem_of_fmap. split.
    - intros (p & Hp & Hin). by exists p.
    - intros (p & Hin & Hp). by exists p. }
  intros g Hg. unfold analisis_categoria in Hg.
  apply list_elem_of_fmap in Hg as ([k l] & -> & Hkl).
  destruct (groupby_no_vacio categoria fs k l Hkl) as (_ & p & Hp & _).
  simpl. destruct l as [|q l]; [by apply elem_of_nil in Hp|].
  split; [simpl; lia|]. by eexists.
Qed.

(** X12.  In the supplier table the product counts of the groups add up to
    the number of products that have a supplier and the stock totals to
    their stock; every supplier counts at least one product, and never more
    categories than products. *)
Theorem analisis_proveedor_totales (fs : list Producto) :
  suma (map (fun g => Z.of_nat (gp_productos g)) (analisis_proveedor fs))
  = Z.of_nat (length (con_valor proveedor fs)) /\
  suma (map gp_stock_total (analisis_proveedor fs))
  = suma (map stock (con_valor proveedor fs)) /\
  (forall g, g ∈ analisis_proveedor fs ->
     (1 <= gp_productos g)%nat /\ (gp_categorias g <= gp_productos g)%nat).
Proof.
  unfold analisis_proveedor. rewrite !map_map. split; [|split].
  - rewrite <- suma_unos, <- (suma_medida_grupos proveedor (fun _ => 1%Z)).
    f_equal. apply map_ext. intros [k g]. simpl. by rewrite suma_unos, length_map.
  - rewrite <- (suma_medida_grupos proveedor stock).
    f_equal. apply map_ext. by intros [k g].
  - intros g Hg. apply list_elem_of_fmap in Hg as ([k l] & -> & Hkl).
    destruct (groupby_no_vacio proveedor fs k l Hkl) as (_ & p & Hp & _).
    simpl. split.
    + destruct l; [by apply elem_of_nil in Hp|]. simpl. lia.
    + rewrite length_map. etransitivity; [apply nunique_cota|]. by rewrite length_map.
Qed.

(** ** The charts of the start page *)

Lemma pd_cut_rango (x : Z) : is_Some (pd_cut x) <-> (0 < x <= 10000)%Z.
Proof.
  unfold pd_cut.
  repeat case_bool_decide; split; intros Hx; try lia; try (by eexists); by destruct Hx.
Qed.

(** X13.  The three bars of the price distribution add up to the number of
    products priced above 0 and up to 10000; a product priced above 10000,
    which the add form accepts, is in none of the bars. *)
Theorem precio_dist_barras (fs : list Producto) :
  (value_counts (precio_dist fs) Economico + value_counts (precio_dist fs) Medio
   + value_counts (precio_dist fs) Premium)%nat
  = length (filter (fun p => (0 < precio p <= 10000)%Z) fs) /\
  (forall p, p ∈ fs -> (10000 < precio p)%Z -> pd_cut (precio p) = None).
Proof.
  split.
  - unfold value_counts, precio_dist.
    induction fs as [|p fs IH]; [done|]. simpl map. rewrite !filter_cons.
    pose proof (pd_cut_rango (precio p)) as Hr.
    destruct (pd_cut (precio p)) as [[]|].
    + rewrite decide_True by done. rewrite !(decide_False (P := Some _ = Some _)) by done.
      rewrite decide_True by (apply Hr; by eexists). simpl. lia.
    + rewrite (decide_False (P := Some Medio = Some Economico)) by done.
      rewrite decide_True by done.
      rewrite (decide_False (P := Some Medio = Some Premium)) by done.
      rewrite decide_True by (apply Hr; by eexists). simpl. lia.
    + rewrite !(decide_False (P := Some Premium = Some _)) by done.
      rewrite decide_True by done.
      rewrite decide_True by (apply Hr; by eexists). simpl. lia.
    + rewrite !(decide_False (P := None = Some _)) by done.
      rewrite decide_False; [exact IH|]. intros H. apply Hr in H. by destruct H.
  - intros p _ Hp. pose proof (pd_cut_rango (precio p)) as Hr.
    destruct (pd_cut (precio p)) as [r|]; [|done].
    assert (is_Some (Some r)) as H by by eexists. apply Hr in H. lia.
Qed.

Section Orden.

Context {A : Type} (clave_de : A -> Z).

Lemma insertar_desc_perm (x : A) (l : list A) : insertar_desc clave_de x l ≡ₚ x :: l.
Proof.
  induction l as [|y l IH]; [done|]. simpl.
  destruct (clave_de x <? clave_de y)%Z; [|done].
  rewrite IH. apply Permutation_swap.
Qed.

Lemma ordenar_desc_perm (l : list A) : ordenar_desc clave_de l ≡ₚ l.
Proof.
  induction l as [|x l IH]; [done|]. simpl.
  by rewrite insertar_desc_perm, IH.
Qed.

Lemma insertar_desc_ordenada (x : A) (l : list A) :
  StronglySorted (no_menor clave_de) l -> StronglySorted (no_menor clave_de) (insertar_desc clave_de x l).
Proof.
  induction 1 as [|y l Hl IH Hy]; simpl.
  - repeat constructor.
  - destruct (Z.ltb_spec (clave_de x) (clave_de y)).
    + constructor; [done|]. rewrite insertar_desc_perm. constructor; [|done].
      unfold no_menor. lia.
    + constructor; [by constructor|]. constructor; [unfold no_menor; lia|].
      eapply Forall_impl; [exact Hy|]. unfold no_menor. intros z Hz. lia.
Qed.

Lemma ordenar_desc_ordenada (l : list A) : StronglySorted (no_menor clave_de) (ordenar_desc clave_de l).
Proof.
  induction l as [|x l IH]; [constructor|]. by apply insertar_desc_ordenada.
Qed.

End Orden.

(** X14.  The chart of the most valuable products shows five products, or
    all of them when the catalog has fewer, taken from the catalog, by
    decreasing total value; no product left out is worth more than a product
    shown. *)
Theorem top5_mas_valiosos (fs : list Producto) :
  exists t resto,
    top5 fs = map (fun p => (nombre p, valor p)) t /\
    t ++ resto ≡ₚ fs /\
    length t = min 5 (length fs) /\
    StronglySorted (no_menor valor) t /\
    (forall p q, p ∈ t -> q ∈ resto -> (valor q <= valor p)%Z).
Proof.
  exists (take 5 (ordenar_desc valor fs)), (drop 5 (ordenar_desc valor fs)).
  pose proof (ordenar_desc_ordenada valor fs) as Hs.
  rewrite <- (take_drop 5 (ordenar_desc valor fs)) in Hs.
  split; [done|]. split; [by rewrite take_drop, ordenar_desc_perm|].
  split; [by rewrite length_take, (Permutation_length (ordenar_desc_perm valor fs))|].
  split; [by apply StronglySorted_app_1_l in Hs|].
  intros p q Hp Hq. by apply (StronglySorted_app_1_elem_of _ _ _ p q) in Hs.
Qed.

Example top5_de_empates :
  top5 (catalogo_empates ++ catalogo_homonimos)
  = [(Some "Espada", 2400%Z); (Some "Pocion", 1500%Z); (Some "Espada", 500%Z);
     (Some "Espada", 450%Z); (Some "Hacha", 90%Z)].
Proof. vm_compute. reflexivity. Qed.

(** ** The inventory page *)

Lemma maximo_mas_uno_nuevo (l : list Z) (m : Z) :
  maximo l = Some m -> (m + 1)%Z ∉ l.
Proof. intros Hm Hin. pose proof (maximo_cota l m Hm _ Hin). lia. Qed.

(** X15.  An add form with an empty name or an empty description is
    refused: the error is rendered, nothing is written to the file, the
    catalog in memory is the one that was given, and the run does not end in
    a rerun, whatever the outcome a write would have had. *)
Theorem agregar_sin_obligatorios (fs : list Producto) (f : FormAgregar)
    (sel : option texto) (fl : Fallo) (w : Mundo) :
  f_nombre f = "" \/ f_descripcion f = "" ->
  let g := pagina_gestionar (Tabla fs)
             {| envio := EnviaAgregar f; producto_seleccionado := sel |} fl w in
  g_df g = Tabla fs /\ g_mundo g = w /\ g_fin g <> Reinicia /\
  head (g_eventos g) = Some (st_error MsgObligatorios).
Proof.
  intros Hv. cbv zeta. unfold pagina_gestionar. simpl envio. unfold form_agregar.
  assert (bool_decide (f_nombre f = "") || bool_decide (f_descripcion f = "") = true)
    as -> by (apply orb_true_iff; rewrite !bool_decide_eq_true; tauto).
  simpl. unfold tab_actualizar. simpl.
  destruct (verdadero sel); [|done].
  destruct (sel ≫= _); [|done].
  destruct (producto_por_id _ fs); done.
Qed.

Lemma agregar_sin_obligatorios_witness :
  let g := pagina_gestionar (Tabla catalogo_empates)
             {| envio := EnviaAgregar
                  {| f_nombre := ""; f_categoria := Some "Armas"; f_precio := 1;
                     f_stock := 0; f_proveedor := Some "Herrero";
                     f_descripcion := "x" |};
                producto_seleccionado := None |} SinFallo mundo_ejemplo in
  g_df g = Tabla catalogo_empates /\ g_mundo g = mundo_ejemplo /\ g_fin g <> Reinicia /\
  head (g_eventos g) = Some (st_error MsgObligatorios).
Proof.
  apply (agregar_sin_obligatorios catalogo_empates _ None SinFallo mundo_ejemplo).
  left. reflexivity.
Defined.

(** X16.  On a catalog with at least one row, whose highest id is a 64-bit
    integer below the largest one, an add form that passes the validation
    and whose save succeeds writes the lines of the catalog as they are,
    followed by one line for the new product with the fields of the form;
    the id of that line is one more than the highest id and is the id of no
    row of the catalog, even when the ids of the catalog repeat.  The memo
    is cleared and the run ends in a rerun. *)
Theorem agregar_al_final (fs : list Producto) (f : FormAgregar) (w : Mundo) (m : Z) :
  formulario_valido f ->
  maximo (map id fs) = Some m ->
  (MIN_INT64 <= m < MAX_INT64)%Z ->
  let g := form_agregar fs f SinFallo w in
  g_fin g = Reinicia /\
  g_mundo g =
    {| disco := Some (to_csv (Tabla fs) ++
                      [[print_int (m + 1); f_nombre f; escribir_texto (f_categoria f);
                        print_int (f_precio f); print_int (f_stock f);
                        f_descripcion f; escribir_texto (f_proveedor f)]]);
       cache := None |} /\
  g_eventos g = [st_success (MsgAgregado (f_nombre f) (Some (m + 1)%Z))] /\
  (m + 1)%Z ∉ map id fs.
Proof.
  intros (Hn & Hd & _) Hm H64. cbv zeta. unfold form_agregar.
  rewrite !bool_decide_eq_false_2 by done. simpl orb. cbv iota.
  rewrite Hm. simpl fmap. rewrite wrap64_id by (unfold en_int64; lia). simpl.
  split; [done|]. split; [|split; [done|by apply maximo_mas_uno_nuevo]].
  do 3 f_equal. by rewrite map_app.
Qed.

Lemma agregar_al_final_witness :
  let g := form_agregar catalogo_empates form_escudo SinFallo mundo_ejemplo in
  g_fin g = Reinicia /\
  g_mundo g =
    {| disco := Some (to_csv (Tabla catalogo_empates) ++
                      [[print_int (4 + 1); f_nombre form_escudo;
                        escribir_texto (f_categoria form_escudo);
                        print_int (f_precio form_escudo); print_int (f_stock form_escudo);
                        f_descripcion form_escudo;
                        escribir_texto (f_proveedor form_escudo)]]);
       cache := None |} /\
  g_eventos g = [st_success (MsgAgregado (f_nombre form_escudo) (Some (4 + 1)%Z))] /\
  (4 + 1)%Z ∉ map id catalogo_empates.
Proof.
  apply (agregar_al_final catalogo_empates form_escudo mundo_ejemplo 4).
  - unfold formulario_valido, MAX_NUMBER_INPUT. simpl.
    repeat split; (discriminate || lia).
  - vm_compute. reflexivity.
  - unfold MIN_INT64, MAX_INT64. lia.
Defined.

Lemma asignar_stock_fila (producto_id n : Z) (fs : list Producto) (i : nat) (p : Producto) :
  fs !! i = Some p ->
  asignar_stock producto_id n fs !! i
  = Some (if bool_decide (id p = producto_id) then con_stock p n else p).
Proof. intros Hp. unfold asignar_stock. by rewrite list_lookup_fmap, Hp. Qed.

(** X17.  Whatever the operation and the outcome of the write, the stock
    update leaves a catalog in memory with the same number of rows in the
    same order, in which every row has the id, name, category, price,
    description and supplier it had; the rows with another id than the
    product's are not changed at all, and all the rows with the product's id
    end up with one and the same stock. *)
Theorem actualizar_solo_stock (fs : list Producto) (producto_id : Z)
    (producto : Producto) (op : Operacion) (fl : Fallo) (w : Mundo) :
  exists fs',
    g_df (form_actualizar fs producto_id producto op fl w) = Tabla fs' /\
    length fs' = length fs /\
    (forall i p, fs !! i = Some p ->
       exists p', fs' !! i = Some p' /\
         con_stock p' (stock p) = p /\
         (id p <> producto_id -> p' = p)) /\
    (fs' = fs \/
     exists n, forall p', p' ∈ fs' -> id p' = producto_id -> stock p' = n).
Proof.
  assert (forall p : Producto, con_stock p (stock p) = p) as Hcs by by intros [].
  assert (forall n,
            length (asignar_stock producto_id n fs) = length fs /\
            (forall i p, fs !! i = Some p ->
               exists p', asignar_stock producto_id n fs !! i = Some p' /\
                 con_stock p' (stock p) = p /\ (id p <> producto_id -> p' = p)) /\
            (forall p', p' ∈ asignar_stock producto_id n fs ->
               id p' = producto_id -> stock p' = n)) as Hn.
  { intros n. split; [apply length_map|]. split.
    - intros i p Hp. rewrite (asignar_stock_fila _ _ _ _ _ Hp).
      eexists. split; [done|]. case_bool_decide; [|done].
      split; [|done]. by destruct p.
    - intros p' (p & -> & _)%list_elem_of_fmap Hid.
      case_bool_decide; [done|]. done. }
  assert (exists fs', Tabla fs = Tabla fs' /\ length fs' = length fs /\
            (forall i p, fs !! i = Some p ->
               exists p', fs' !! i = Some p' /\
                 con_stock p' (stock p) = p /\ (id p <> producto_id -> p' = p)) /\
            (fs' = fs \/
             exists n, forall p', p' ∈ fs' -> id p' = producto_id -> stock p' = n))
    as Hsame.
  { exists fs. repeat split; [|by left]. intros i p Hp. exists p. by rewrite Hcs. }
  unfold form_actualizar, calcular_stock.
  destruct op as [c|c|n]; [|destruct (stock producto <? c)%Z; [exact Hsame|]|];
    (destruct (guardar_datos _ fl (disco w)) as [[[] d] evs]; simpl;
     eexists; (split; [done|]);
     match goal with |- context [asignar_stock _ ?n _] =>
       destruct (Hn n) as (H1 & H2 & H3) end;
     (split; [done|]); (split; [done|]); right; eauto).
Qed.

(** ** Runs of the application *)

Lemma form_actualizar_memo (fs : list Producto) (producto_id : Z) (producto : Producto)
    (op : Operacion) (fl : Fallo) (w : Mundo) :
  let g := form_actualizar fs producto_id producto op fl w in
  (g_fin g = Reinicia /\ cache (g_mundo g) = None /\ is_Some (disco (g_mundo g))) \/
  (g_fin g = Continua /\ cache (g_mundo g) = cache w).
Proof.
  cbv zeta. unfold form_actualizar.
  destruct (calcular_stock producto op) as [[[n m]|] evs]; [|by right].
  destruct (guardar_datos _ fl (disco w)) as [[[] d] evs'] eqn:Eg; simpl; [|by right].
  left. apply guardar_datos_hecho in Eg as (_ & -> & _). repeat split. by eexists.
Qed.

Lemma tab_actualizar_memo (fs : list Producto) (e : EntradaGestionar) (fl : Fallo)
    (w : Mundo) :
  let g := tab_actualizar fs e fl w in
  (g_fin g = Reinicia /\ cache (g_mundo g) = None /\ is_Some (disco (g_mundo g))) \/
  (g_fin g <> Reinicia /\ cache (g_mundo g) = cache w).
Proof.
  cbv zeta. unfold tab_actualizar.
  destruct (verdadero _); [|by right].
  destruct (_ ≫= _) as [producto_id|]; [|by right].
  destruct (producto_por_id producto_id fs) as [producto|]; [|by right].
  destruct (envio e) as [|f|op]; [by right|by right|].
  destruct (form_actualizar_memo fs producto_id producto op fl w) as [H|[H1 H2]];
    [by left|right]. simpl. by rewrite H1.
Qed.

Lemma form_agregar_memo (fs : list Producto) (f : FormAgregar) (fl : Fallo) (w : Mundo) :
  let g := form_agregar fs f fl w in
  (g_fin g = Reinicia /\ cache (g_mundo g) = None /\ is_Some (disco (g_mundo g))) \/
  (g_fin g = Continua /\ cache (g_mundo g) = cache w).
Proof.
  cbv zeta. unfold form_agregar.
  destruct (_ || _); [by right|].
  destruct (maximo (map id fs)) as [m|]; simpl;
    destruct fl; simpl; (by right) || (left; repeat split; by eexists).
Qed.

Lemma pagina_gestionar_memo (df : DataFrame) (e : EntradaGestionar) (fl : Fallo)
    (w : Mundo) :
  let g := pagina_gestionar df e fl w in
  (g_fin g = Reinicia /\ cache (g_mundo g) = None /\ is_Some (disco (g_mundo g))) \/
  (g_fin g <> Reinicia /\ cache (g_mundo g) = cache w).
Proof.
  cbv zeta. unfold pagina_gestionar. destruct df as [|fs]; [by right|].
  destruct (envio e) as [|f|op] eqn:Ee.
  - simpl. apply tab_actualizar_memo.
  - destruct (form_agregar_memo fs f fl w) as [(H1 & H2 & H3)|[H1 H2]].
    + rewrite H1. by left.
    + rewrite H1. simpl.
      destruct (tab_actualizar_memo fs e fl (g_mundo (form_agregar fs f fl w)))
        as [H|[H3 H4]]; [by left|right]. by rewrite H4.
  - simpl. apply tab_actualizar_memo.
Qed.

Section Ejecuciones.

Variable str_contains : string -> string -> bool.

Lemma memo_cargado (w : Mundo) :
  exists df evs d,
    cargar_datos_memo w = (df, evs, {| disco := d; cache := Some (df, evs) |}) /\
    d = disco w.
Proof.
  unfold cargar_datos_memo. destruct w as [d [[df evs]|]]; simpl.
  - by exists df, evs, d.
  - destruct (cargar_datos d) as [df evs]. by exists df, evs, d.
Qed.

(** What a run leaves in the memo: nothing after a rerun, which follows a
    successful write, and otherwise what it loaded. *)
Lemma main_memo (w : Mundo) (nav : Navegacion) (fl : Fallo) :
  let r := main str_contains w nav fl in
  (final r = Reiniciado /\ cache (mundo r) = None /\ is_Some (disco (mundo r))) \/
  (final r <> Reiniciado /\
   cache (mundo r) = Some (fst (cargar_datos_memo w))).
Proof.
  cbv zeta. unfold main.
  destruct (memo_cargado w) as (df & evs & d & -> & _).
  destruct (empty df); [by right|].
  destruct nav as [|f| |e]; simpl.
  - right. by destruct (pagina_inicio df).
  - right. by destruct (pagina_productos str_contains df f).
  - right. by destruct (pagina_estadisticas df).
  - destruct (pagina_gestionar_memo df e fl {| disco := d; cache := Some (df, evs) |})
      as [(H1 & H2 & H3)|[H1 H2]].
    + left. by rewrite H1.
    + right. split; [|done]. by destruct (g_fin _).
Qed.

(** X18.  After a run the memo of [cargar_datos] is empty exactly when the
    run ended in a rerun, and then something has been written to the file:
    the memo is cleared after every successful save and never otherwise. *)
Theorem main_memo_limpio (w : Mundo) (nav : Navegacion) (fl : Fallo) :
  (cache (mundo (main str_contains w nav fl)) = None <->
   final (main str_contains w nav fl) = Reiniciado) /\
  (final (main str_contains w nav fl) = Reiniciado ->
   is_Some (disco (mundo (main str_contains w nav fl)))).
Proof.
  destruct (main_memo w nav fl) as [(H1 & H2 & H3)|[H1 H2]].
  - split; [by split|done].
  - split; [|done]. rewrite H2. by split.
Qed.

(** X19.  A run that does not end in a rerun leaves the next run the very
    catalog it worked on itself, whatever has become of the file: after a
    save that failed half way, the application goes on showing the catalog
    of the memo. *)
Theorem main_sin_rerun_mismo_catalogo (w : Mundo) (nav : Navegacion) (fl : Fallo) :
  final (main str_contains w nav fl) <> Reiniciado ->
  catalogo_cargado (mundo (main str_contains w nav fl)) = catalogo_cargado w.
Proof.
  intros Hf. destruct (main_memo w nav fl) as [(H1 & _)|[_ H2]]; [done|].
  unfold catalogo_cargado at 1. unfold cargar_datos_memo. rewrite H2.
  unfold catalogo_cargado. by destruct (cargar_datos_memo w) as [[df evs] w1].
Qed.

(** X20.  The start page, the product page, the statistics page, and the
    inventory page when no form is submitted never write: the file is what
    it was, and running the same page again gives the same run. *)
Theorem main_solo_lectura (w : Mundo) (nav : Navegacion) (fl fl' : Fallo) :
  solo_lectura nav = true ->
  disco (mundo (main str_contains w nav fl)) = disco w /\
  main str_contains (mundo (main str_contains w nav fl)) nav fl'
  = main str_contains w nav fl.
Proof.
  intros Hn.
  destruct (memo_cargado w) as (df & evs & d & Hmem & ->).
  set (w1 := {| disco := disco w; cache := Some (df, evs) |}) in *.
  assert (cargar_datos_memo w1 = (df, evs, w1)) as Hw1 by done.
  assert (disco w1 = disco w) as Hdisk by done.
  assert (forall fl0, mundo (despachar str_contains df nav fl0 w1) = w1 /\
                      despachar str_contains df nav fl0 w1
                      = despachar str_contains df nav fl w1) as Hd.
  { intros fl0. destruct nav as [|f| |[[|f|op] sel]]; try done.
    simpl. unfold pagina_gestionar. destruct df as [|fs]; [done|]. simpl.
    unfold tab_actualizar. simpl.
    destruct (verdadero sel); [|done].
    destruct (sel ≫= _); [|done].
    destruct (producto_por_id _ fs); done. }
  clearbody w1.
  assert (forall w0 fl0, cargar_datos_memo w0 = (df, evs, w1) ->
            main str_contains w0 nav fl0
            = if empty df
              then {| mundo := w1; eventos := evs ++ [st_error MsgSinDatos];
                      final := Abortado |}
              else {| mundo := mundo (despachar str_contains df nav fl0 w1);
                      eventos := evs ++ eventos (despachar str_contains df nav fl0 w1);
                      final := final (despachar str_contains df nav fl0 w1) |})
    as Hmain.
  { intros w0 fl0 H0. unfold main. by rewrite H0. }
  rewrite (Hmain w fl Hmem).
  destruct (empty df) eqn:Ee.
  - cbn [mundo]. split; [done|]. by rewrite (Hmain w1 fl' Hw1).
  - cbn [mundo]. destruct (Hd fl) as [-> _]. split; [done|].
    rewrite (Hmain w1 fl' Hw1). destruct (Hd fl') as [-> ->]. done.
Qed.

End Ejecuciones.

Lemma main_sin_rerun_mismo_catalogo_witness :
  catalogo_cargado
    (mundo (main (fun _ _ => false) mundo_ejemplo
              (GestionarInventario
                 {| envio := EnviaActualizar (Recepcion 10);
                    producto_seleccionado := Some (Some "Pocion") |})
              (FalloAlEscribir 1)))
  = catalogo_cargado mundo_ejemplo.
Proof.
  apply (main_sin_rerun_mismo_catalogo (fun _ _ => false) mundo_ejemplo).
  vm_compute. discriminate.
Defined.

Lemma main_solo_lectura_witness :
  disco (mundo (main (fun _ _ => false) mundo_ejemplo VerEstadisticas SinFallo))
  = disco mundo_ejemplo /\
  main (fun _ _ => false)
    (mundo (main (fun _ _ => false) mundo_ejemplo VerEstadisticas SinFallo))
    VerEstadisticas FalloAlAbrir
  = main (fun _ _ => false) mundo_ejemplo VerEstadisticas SinFallo.
Proof.
  apply (main_solo_lectura (fun _ _ => false) mundo_ejemplo VerEstadisticas).
  reflexivity.
Defined.

(** The file is cut down to its header by the failed save, and the next run
    still works on the two products of the memo. *)
Example memo_tras_fallo :
  let r := main (fun _ _ => false) mundo_ejemplo
             (GestionarInventario
                {| envio := EnviaActualizar (Recepcion 10);
                   producto_seleccionado := Some (Some "Pocion") |})
             (FalloAlEscribir 1) in
  disco (mundo r) = Some [COLUMNAS] /\ catalogo_cargado (mundo r) = ejemplo_df.
Proof. vm_compute. split; reflexivity. Qed.

(** ** A reception undone by a sale *)

Lemma fila_cargada (r : list string) (p : Producto) :
  fila_de_celdas r = Some p -> releer p = p /\ nombre p <> Some "".
Proof.
  unfold fila_de_celdas. intros Hr.
  destruct (parse_int (celda r 0)) as [a|]; [|done].
  destruct (parse_int (celda r 3)) as [b|]; [|done].
  destruct (parse_int (celda r 4)) as [c|]; [|done].
  simpl in Hr. injection Hr as <-. split.
  - unfold releer. simpl. by rewrite !Store.leer_escribir_leer.
  - cbn [nombre]. unfold leer_texto.
    destruct (es_na (celda r 1)) eqn:E; [done|]. intros [= H]. by rewrite H in E.
Qed.

Lemma catalogo_cargado_filas (f : option Archivo) (fs : list Producto) (evs : list Evento) :
  cargar_datos f = (Tabla fs, evs) ->
  Forall (fun p => releer p = p /\ nombre p <> Some "") fs.
Proof.
  unfold cargar_datos. destruct (read_csv f) as [e|cuerpo]; [by destruct e|].
  destruct (mapM fila_de_celdas cuerpo) as [fs'|] eqn:Em; [|done].
  intros [= -> _]. apply mapM_Some in Em.
  induction Em as [|r p cuerpo fs Hr _ IH]; constructor; eauto using fila_cargada.
Qed.

Lemma releer_asignar_stock (a n : Z) (fs : list Producto) :
  Forall (fun p => releer p = p) fs ->
  map releer (asignar_stock a n fs) = asignar_stock a n fs.
Proof.
  unfold asignar_stock. induction 1 as [|p fs Hp _ IH]; [done|]. simpl.
  rewrite IH. f_equal. case_bool_decide; [|done].
  rewrite <- Hp at 2. by destruct p.
Qed.

Lemma asignar_stock_columnas (a n : Z) (fs : list Producto) :
  map nombre (asignar_stock a n fs) = map nombre fs /\
  map id (asignar_stock a n fs) = map id fs.
Proof.
  unfold asignar_stock. rewrite !map_map.
  split; apply map_ext; intros p; by case_bool_decide.
Qed.

Lemma asignar_stock_dos_veces (a n1 n2 : Z) (fs : list Producto) :
  asignar_stock a n2 (asignar_stock a n1 fs) = asignar_stock a n2 fs.
Proof.
  unfold asignar_stock. rewrite map_map. apply map_ext. intros p.
  destruct (decide (id p = a)) as [H|H].
  - rewrite !(bool_decide_eq_true_2 (id p = a)) by done. simpl. done.
  - by rewrite !(bool_decide_eq_false_2 (id p = a)).
Qed.

Lemma asignar_stock_el_mismo (fs : list Producto) (i : nat) (p : Producto) :
  NoDup (map id fs) -> fs !! i = Some p -> asignar_stock (id p) (stock p) fs = fs.
Proof.
  intros Hnd Hi. apply list_eq. intros j.
  destruct (fs !! j) as [q|] eqn:Hj.
  - rewrite (asignar_stock_fila _ _ _ _ _ Hj). f_equal.
    case_bool_decide as Hq; [|done].
    assert (j = i) as ->.
    { apply (NoDup_lookup (map id fs) j i (id p)); [done| |].
      - by rewrite list_lookup_fmap, Hj, <- Hq.
      - by rewrite list_lookup_fmap, Hi. }
    assert (q = p) as -> by congruence. by destruct p.
  - unfold asignar_stock. by rewrite list_lookup_fmap, Hj.
Qed.

Lemma productos_dict_asignar (a n : Z) (fs : list Producto) :
  productos_dict (asignar_stock a n fs) = productos_dict fs.
Proof.
  unfold productos_dict. destruct (asignar_stock_columnas a n fs) as [-> ->]. done.
Qed.

Lemma tab_actualizar_seleccion (fs : list Producto) (s : string) (p : Producto)
    (op : Operacion) (fl : Fallo) (w : Mundo) :
  s <> "" ->
  productos_dict fs !! Some s = Some (id p) ->
  producto_por_id (id p) fs = Some p ->
  tab_actualizar fs
    {| envio := EnviaActualizar op; producto_seleccionado := Some (Some s) |} fl w
  = tras_eventos [st_info (MsgInformacion (stock p) (precio p) (categoria p))]
      (form_actualizar fs (id p) p op fl w).
Proof.
  intros Hs Hd Hp. unfold tab_actualizar. simpl.
  rewrite bool_decide_eq_false_2 by done. simpl. by rewrite Hd, Hp.
Qed.

Section RecepcionVenta.

Variable str_contains : string -> string -> bool.

Lemma main_actualizar (w : Mundo) (fs : list Producto) (s : string) (p : Producto)
    (op : Operacion) (n : Z) (m : Mensaje) :
  cache w = None ->
  cargar_datos (disco w) = (Tabla fs, []) ->
  s <> "" ->
  productos_dict fs !! Some s = Some (id p) ->
  producto_por_id (id p) fs = Some p ->
  calcular_stock p op = (Some (n, m), []) ->
  let r := main str_contains w
             (GestionarInventario
                {| envio := EnviaActualizar op; producto_seleccionado := Some (Some s) |})
             SinFallo in
  final r = Reiniciado /\
  mundo r = {| disco := Some (to_csv (Tabla (asignar_stock (id p) n fs)));
               cache := None |}.
Proof.
  intros Hc Hl Hs Hd Hp Hcalc. cbv zeta. unfold main, cargar_datos_memo.
  rewrite Hc, Hl.
  assert (p ∈ fs) as Hin by by apply producto_por_id_elem in Hp as [? _].
  destruct fs as [|p0 fs0]; [by apply elem_of_nil in Hin|].
  set (fs := p0 :: fs0) in *. simpl empty. cbv iota.
  unfold despachar, pagina_gestionar. simpl envio. cbv iota.
  unfold tras_eventos at 1. simpl g_mundo. simpl g_fin.
  rewrite (tab_actualizar_seleccion fs s p op SinFallo _ Hs Hd Hp).
  unfold form_actualizar. rewrite Hcalc. simpl. done.
Qed.

(** X21.  On a freshly loaded catalog that pandas holds as the model does,
    with unique ids and non-negative stocks, a reception of a positive
    amount that takes no stock of the catalog beyond the largest 64-bit
    integer, for a product chosen by its name, followed in the next run by a
    sale of the same amount for the same name, both saved, gives back the
    catalog: the file holds the lines of the original catalog and the next
    run loads it again, while in between the catalog was another one. *)
Theorem recepcion_y_venta (w : Mundo) (fs : list Producto) (s : string) (c : Z) :
  cache w = None ->
  cargar_datos (disco w) = (Tabla fs, []) ->
  catalogo_fiel fs ->
  NoDup (map id fs) ->
  stock_no_negativo fs ->
  Some s ∈ map nombre fs ->
  (0 < c <= MAX_NUMBER_INPUT)%Z ->
  Forall (fun p => (stock p + c <= MAX_INT64)%Z) fs ->
  let pedir op :=
    GestionarInventario
      {| envio := EnviaActualizar op; producto_seleccionado := Some (Some s) |} in
  let r1 := main str_contains w (pedir (Recepcion c)) SinFallo in
  let r2 := main str_contains (mundo r1) (pedir (Venta c)) SinFallo in
  final r1 = Reiniciado /\ final r2 = Reiniciado /\
  catalogo_cargado (mundo r1) <> Tabla fs /\
  disco (mundo r2) = Some (to_csv (Tabla fs)) /\
  catalogo_cargado (mundo r2) = Tabla fs.
Proof.
  intros Hc Hl _ Hnd Hst Hs Hpos Hcabe. cbv zeta.
  pose proof (catalogo_cargado_filas _ _ _ Hl) as Hfilas.
  assert (Forall (fun p => releer p = p) fs) as Hrel
    by (eapply Forall_impl; [exact Hfilas|]; by intros ? [? _]).
  destruct (productos_dict_ultimo fs (Some s) Hs) as (i & p & Hi & Hn & _ & Hd).
  assert (p ∈ fs) as Hin by (apply list_elem_of_lookup; eauto).
  assert (s <> "") as Hne.
  { rewrite Forall_forall in Hfilas. destruct (Hfilas p Hin) as [_ H].
    intros ->. by apply H. }
  assert (0 <= stock p)%Z as H0
    by (unfold stock_no_negativo in Hst; rewrite Forall_forall in Hst; by apply Hst).
  assert (stock p + c <= MAX_INT64)%Z as Hcabe_p
    by (rewrite Forall_forall in Hcabe; by apply Hcabe).
  assert (MIN_INT64 < 0)%Z as Hmin by done.
  pose proof (producto_por_id_unico fs i p Hnd Hi) as Hp.
  assert (calcular_stock p (Recepcion c)
          = (Some ((stock p + c)%Z, MsgAgregaron c (stock p + c)), [])) as Hcalc1.
  { unfold calcular_stock. by rewrite wrap64_id by (unfold en_int64; lia). }
  set (fs1 := asignar_stock (id p) (stock p + c) fs).
  set (p1 := con_stock p (stock p + c)).
  destruct (main_actualizar w fs s p (Recepcion c) (stock p + c)%Z
              (MsgAgregaron c (stock p + c)) Hc Hl Hne Hd Hp Hcalc1) as [Hf1 Hw1].
  fold fs1 in Hw1. rewrite Hw1.
  assert (fs1 !! i = Some p1) as Hi1.
  { unfold fs1. rewrite (asignar_stock_fila _ _ _ _ _ Hi).
    by rewrite bool_decide_eq_true_2. }
  assert (NoDup (map id fs1)) as Hnd1
    by (unfold fs1; by destruct (asignar_stock_columnas (id p) (stock p + c) fs) as [_ ->]).
  assert (cargar_datos (Some (to_csv (Tabla fs1))) = (Tabla fs1, [])) as Hl1.
  { rewrite cargar_to_csv. unfold fs1. by rewrite releer_asignar_stock. }
  pose proof (producto_por_id_unico fs1 i p1 Hnd1 Hi1) as Hp1.
  assert (productos_dict fs1 !! Some s = Some (id p1)) as Hd1
    by (unfold fs1; by rewrite productos_dict_asignar).
  assert (calcular_stock p1 (Venta c)
          = (Some (stock p, MsgRedujeron c (stock p)), [])) as Hcalc.
  { unfold calcular_stock, p1. simpl.
    rewrite (proj2 (Z.ltb_ge _ _)) by lia.
    replace (stock p + c - c)%Z with (stock p) by lia.
    by rewrite wrap64_id by (unfold en_int64; lia). }
  destruct (main_actualizar {| disco := Some (to_csv (Tabla fs1)); cache := None |}
              fs1 s p1 (Venta c) (stock p) (MsgRedujeron c (stock p))
              eq_refl Hl1 Hne Hd1 Hp1 Hcalc) as [Hf2 Hw2].
  assert (asignar_stock (id p1) (stock p) fs1 = fs) as Hfs2.
  { unfold fs1, p1. simpl. rewrite asignar_stock_dos_veces.
    by apply (asignar_stock_el_mismo fs i p). }
  rewrite Hfs2 in Hw2. rewrite Hw2.
  split; [done|]. split; [done|]. split; [|split; [done|]].
  - rewrite catalogo_cargado_guardado. intros [= Heq].
    unfold fs1 in Heq. rewrite (releer_asignar_stock _ _ _ Hrel) in Heq.
    fold fs1 in Heq.
    assert (fs1 !! i = Some p) as Hi' by by rewrite Heq.
    rewrite Hi1 in Hi'. injection Hi' as Hp'.
    apply (f_equal stock) in Hp'. unfold p1 in Hp'. simpl in Hp'. lia.
  - rewrite catalogo_cargado_guardado. f_equal.
    clear -Hrel. induction Hrel as [|q l Hq _ IH]; [done|]. simpl. by rewrite Hq, IH.
Qed.

End RecepcionVenta.

Lemma recepcion_y_venta_witness :
  let pedir op :=
    GestionarInventario
      {| envio := EnviaActualizar op; producto_seleccionado := Some (Some "Pocion") |} in
  let r1 := main (fun _ _ => false) mundo_ejemplo (pedir (Recepcion 10)) SinFallo in
  let r2 := main (fun _ _ => false) (mundo r1) (pedir (Venta 10)) SinFallo in
  final r1 = Reiniciado /\ final r2 = Reiniciado /\
  catalogo_cargado (mundo r1) <> Tabla (filas ejemplo_df) /\
  disco (mundo r2) = Some (to_csv (Tabla (filas ejemplo_df))) /\
  catalogo_cargado (mundo r2) = Tabla (filas ejemplo_df).
Proof.
  apply (recepcion_y_venta (fun _ _ => false) mundo_ejemplo (filas ejemplo_df)
           "Pocion" 10).
  - reflexivity.
  - vm_compute. reflexivity.
  - unfold catalogo_fiel, enteros_int64, textos_llanos, en_int64, MIN_INT64, MAX_INT64.
    simpl. split; repeat constructor; simpl; lia.
  - simpl. repeat constructor; rewrite ?elem_of_cons, ?elem_of_nil; intuition lia.
  - unfold stock_no_negativo. simpl. repeat constructor; simpl; lia.
  - vm_compute. apply list_elem_of_further, list_elem_of_here.
  - unfold MAX_NUMBER_INPUT. lia.
  - unfold MAX_INT64. simpl. repeat constructor; simpl; lia.
Defined.

(** ** The options of the update tab *)



(** ** The statistics page and the metrics *)

Lemma extremos_existen (p0 : Producto) (fs : list Producto) :
  exists c b,
    mas_caro (p0 :: fs) = Some c /\ mas_barato (p0 :: fs) = Some b /\
    c ∈ p0 :: fs /\ b ∈ p0 :: fs /\
    (forall p, p ∈ p0 :: fs -> (precio b <= precio p <= precio c)%Z).
Proof.
  unfold mas_caro, mas_barato, idxmax, idxmin. simpl map.
  destruct (idx_scan_primero (fun z => z) (fun y b => (b <? y)%Z)
              (fun _ _ => eq_refl) (precio p0) (map precio fs))
    as (v & Hv & Hmax & _).
  destruct (idx_scan_primero Z.opp (fun y b => (y <? b)%Z)) with
    (x := precio p0) (l := map precio fs) as (u & Hu & Hmin & _).
  { intros y b. destruct (Z.ltb_spec y b), (Z.ltb_spec (- b) (- y)); lia. }
  set (i := idx_scan (fun y b => (b <? y)%Z) _ _ _ _) in *.
  set (j := idx_scan (fun y b => (y <? b)%Z) _ _ _ _) in *.
  change (precio p0 :: map precio fs) with (map precio (p0 :: fs)) in *.
  rewrite list_lookup_fmap in Hv, Hu.
  destruct ((p0 :: fs) !! i) as [c|] eqn:Hc; [|done].
  destruct ((p0 :: fs) !! j) as [b|] eqn:Hb; [|done].
  injection Hv as <-. injection Hu as <-.
  exists c, b. simpl. rewrite Hc, Hb.
  repeat split; try (apply list_elem_of_lookup; eauto).
  - assert (- precio p <= - precio b)%Z; [|lia].
    apply Hmin. by apply list_elem_of_fmap_2.
  - apply Hmax. by apply list_elem_of_fmap_2.
Qed.

Lemma groupby_nil (col : Producto -> texto) (fs : list Producto) :
  groupby col fs = [] <-> forall p, p ∈ fs -> col p = None.
Proof.
  unfold groupby. split.
  - intros H p Hp. destruct (col p) as [k|] eqn:Ek; [|done].
    apply fmap_nil_inv in H.
    assert (k ∈ claves (map col fs)) as Hk.
    { apply claves_elem. rewrite <- Ek. by apply list_elem_of_fmap_2. }
    rewrite H in Hk. by apply elem_of_nil in Hk.
  - intros H. destruct (claves (map col fs)) as [|k ks] eqn:Ek; [done|].
    assert (k ∈ claves (map col fs)) as Hk by (rewrite Ek; apply list_elem_of_here).
    apply claves_elem, list_elem_of_fmap in Hk as (p & Hp & Hin).
    rewrite (H p Hin) in Hp. done.
Qed.

(** X23.  On a table in which no product has a category, or no product has
    a supplier, the table without rows among them, the statistics page
    raises a [ValueError]; on any other table it shows the category table,
    the supplier table and two products of the catalog, the cheapest priced
    no higher than any product and the most expensive no lower. *)
Theorem pagina_estadisticas_extremos (fs : list Producto) :
  ((forall p, p ∈ fs -> categoria p = None) \/ (forall p, p ∈ fs -> proveedor p = None) ->
   pagina_estadisticas (Tabla fs) = inl ValueError) /\
  ((exists p, p ∈ fs /\ is_Some (categoria p)) ->
   (exists p, p ∈ fs /\ is_Some (proveedor p)) ->
   exists e, pagina_estadisticas (Tabla fs) = inr e /\
     e_analisis_categoria e = analisis_categoria fs /\
     e_analisis_proveedor e = analisis_proveedor fs /\
     e_mas_caro e ∈ fs /\ e_mas_barato e ∈ fs /\
     (forall p, p ∈ fs ->
        (precio (e_mas_barato e) <= precio p <= precio (e_mas_caro e))%Z)).
Proof.
  unfold pagina_estadisticas. split.
  - intros [H|H]; apply (proj2 (groupby_nil _ _)) in H; rewrite H; [done|].
    by destruct (groupby categoria fs).
  - intros (p & Hp & Hcat) (q & Hq & Hprov).
    destruct (groupby categoria fs) as [|g1 gs1] eqn:E1.
    { pose proof (proj1 (groupby_nil _ _) E1) as E1'. rewrite (E1' p Hp) in Hcat. by destruct Hcat. }
    destruct (groupby proveedor fs) as [|g2 gs2] eqn:E2.
    { pose proof (proj1 (groupby_nil _ _) E2) as E2'. rewrite (E2' q Hq) in Hprov. by destruct Hprov. }
    destruct fs as [|p0 fs]; [by apply elem_of_nil in Hp|].
    destruct (extremos_existen p0 fs) as (c & b & Hc & Hb & Hcin & Hbin & Hcota).
    rewrite Hc, Hb. eexists. split; [done|]. done.
Qed.

Lemma pagina_estadisticas_extremos_witness :
  (pagina_estadisticas (Tabla catalogo_sin_grupos) = inl ValueError) /\
  (exists e, pagina_estadisticas (Tabla catalogo_empates) = inr e /\
     e_analisis_categoria e = analisis_categoria catalogo_empates /\
     e_analisis_proveedor e = analisis_proveedor catalogo_empates /\
     e_mas_caro e ∈ catalogo_empates /\ e_mas_barato e ∈ catalogo_empates /\
     (forall p, p ∈ catalogo_empates ->
        (precio (e_mas_barato e) <= precio p <= precio (e_mas_caro e))%Z)).
Proof.
  split.
  - destruct (pagina_estadisticas_extremos catalogo_sin_grupos) as [H _].
    apply H. left. intros p Hp.
    repeat (apply elem_of_cons in Hp as [->|Hp]; [reflexivity|]).
    by apply elem_of_nil in Hp.
  - destruct (pagina_estadisticas_extremos catalogo_empates) as [_ H].
    apply H.
    + exists (mkProducto 1 (Some "Daga") (Some "Armas") 10 3 (Some "Corta")
                (Some "Herrero")).
      split; [apply list_elem_of_here | by eexists].
    + exists (mkProducto 1 (Some "Daga") (Some "Armas") 10 3 (Some "Corta")
                (Some "Herrero")).
      split; [apply list_elem_of_here | by eexists].
Defined.

(** X24.  The metrics of the start page: the products in low stock and the
    categories are never more than the products; the count of products in
    low stock is 0, and the metric shows OK, exactly when every stock is
    above the threshold of 20; and it is the number of results the product
    page gives for the low-stock filter alone. *)
Theorem pagina_inicio_metricas (str_contains : string -> string -> bool)
    (fs : list Producto) (f : Filtros) :
  exists m, pagina_inicio (Tabla fs) = inr m /\
    (m_productos_bajo_stock m <= m_total_productos m)%nat /\
    (m_categorias m <= m_total_productos m)%nat /\
    (m_productos_bajo_stock m = 0%nat <->
     Forall (fun p => (UMBRAL_STOCK_BAJO < stock p)%Z) fs) /\
    (aplicar_filtros str_contains fs (con_estado f StockTodos) = fs ->
     length (aplicar_filtros str_contains fs (con_estado f StockBajo))
     = m_productos_bajo_stock m).
Proof.
  eexists. split; [reflexivity|]. simpl.
  split; [apply length_filter|].
  split; [rewrite <- (length_map categoria fs); apply nunique_cota|].
  split.
  - induction fs as [|p fs IH]; [by split|].
    rewrite filter_cons, Forall_cons. case_decide; simpl.
    + split; [done|]. intros [? _]. lia.
    + rewrite IH. split; [|tauto]. split; [lia|done].
  - rewrite !aplicar_filtros_cumple. intros Hall.
    assert (Forall (fun p => cumple str_contains (con_estado f StockTodos) p = true) fs)
      as Ht.
    { apply Forall_forall. intros p Hp. rewrite <- Hall in Hp.
      by apply list_elem_of_filter in Hp as [? _]. }
    clear Hall. induction Ht as [|p fs Hp _ IH]; [done|].
    rewrite !filter_cons.
    destruct (cumple_estado str_contains f p) as [-> _]. rewrite Hp. simpl.
    repeat case_decide; repeat case_bool_decide; simpl; try done; try lia.
    all: by rewrite IH.
Qed.
